(** * Elaboration report: matching sources with outputs

    A shallow embedding of [scripts/generate_elaboration_report.py] and the
    properties of its path normaliser, matcher, status resolver, output
    indexer and report assembler.

    Python [str] values are modelled as [string], the UTF-8 bytes of the
    text, as a string literal of this file has them; the separators ["/"],
    ["."] and [","] are ASCII, so that splitting and searching on the bytes
    is splitting and searching on the characters.  The platform separator
    [os.sep] is ["/"] and [os.path] is [posixpath].  Python sets of strings
    are [gset string], lists are [list].  The file system is an external
    collaborator: [os.walk], [os.path.relpath], [os.path.abspath] and
    [os.path.getmtime] are section variables.

    [str.lower] follows the Unicode tables, which are not part of this
    development.  [Py.lower] is its restriction to ASCII letters: the two
    agree on ASCII text and on every comparison of a lowercased string with
    a wrapper word or with [.csv], [.timeout], [.error].  Where the result
    of [str.lower] is compared with text of the caller, in the extension
    filter, the function is a parameter ([filtered_out_with],
    [generate_report_with], [parse_exts_with]). *)

From Stdlib Require Import ZArith Ascii String List Permutation Sorted Lia.
From stdpp Require Import base decidable gmap strings list.
Import ListNotations.

Local Open Scope Z_scope.

(** ** Python string primitives *)

Module Py.

(** [s[n:]] for [0 <= n]. *)
Fixpoint drop_str (n : nat) (s : string) : string :=
  match n, s with
  | O, _ => s
  | S _, EmptyString => EmptyString
  | S n', String _ s' => drop_str n' s'
  end.

(** [s[:n]] for [0 <= n]. *)
Fixpoint take_str (n : nat) (s : string) : string :=
  match n, s with
  | O, _ => EmptyString
  | S _, EmptyString => EmptyString
  | S n', String c s' => String c (take_str n' s')
  end.

(** Position of the last occurrence of [c] in [s], if any. *)
Fixpoint rfind_opt (c : ascii) (s : string) : option nat :=
  match s with
  | EmptyString => None
  | String a s' =>
      match rfind_opt c s' with
      | Some i => Some (S i)
      | None => if Ascii.eqb a c then Some O else None
      end
  end.

(** [s.rfind(c)]: the highest index of [c] in [s], [-1] when absent. *)
Definition rfind (c : ascii) (s : string) : Z :=
  match rfind_opt c s with
  | Some i => Z.of_nat i
  | None => -1
  end.

(** [s.rstrip(c)]. *)
Fixpoint rstrip (c : ascii) (s : string) : string :=
  match s with
  | EmptyString => EmptyString
  | String a s' =>
      match rstrip c s' with
      | EmptyString => if Ascii.eqb a c then EmptyString else String a EmptyString
      | r => String a r
      end
  end.

(** [s == c * len(s)]. *)
Fixpoint all_char (c : ascii) (s : string) : bool :=
  match s with
  | EmptyString => true
  | String a s' => Ascii.eqb a c && all_char c s'
  end.

(** [s.startswith(c)]. *)
Definition startswith (c : ascii) (s : string) : bool :=
  match s with
  | EmptyString => false
  | String a _ => Ascii.eqb a c
  end.

(** [s.endswith(c)]. *)
Fixpoint endswith (c : ascii) (s : string) : bool :=
  match s with
  | EmptyString => false
  | String a EmptyString => Ascii.eqb a c
  | String _ s' => endswith c s'
  end.

(** Truthiness of a string: [bool(s)]. *)
Definition truthy (s : string) : bool :=
  match s with
  | EmptyString => false
  | String _ _ => true
  end.

(** [str.lower] on one ASCII character; other bytes are left as they
    are. *)
Definition lower_ascii (c : ascii) : ascii :=
  let n := N_of_ascii c in
  if ((65 <=? n) && (n <=? 90))%N then ascii_of_N (n + 32) else c.

(** [s.lower()] on ASCII letters. *)
Fixpoint lower (s : string) : string :=
  match s with
  | EmptyString => EmptyString
  | String a s' => String (lower_ascii a) (lower s')
  end.

(** [s.split(c)] for a one-character separator: every occurrence of [c]
    ends a field, so there is always at least one field. *)
Fixpoint split (c : ascii) (s : string) : list string :=
  match s with
  | EmptyString => [EmptyString]
  | String a s' =>
      if Ascii.eqb a c then EmptyString :: split c s'
      else match split c s' with
           | [] => [String a EmptyString]
           | w :: ws => String a w :: ws
           end
  end.

(** [sep.join(l)]. *)
Fixpoint join (sep : string) (l : list string) : string :=
  match l with
  | [] => EmptyString
  | [x] => x
  | x :: rest => x +:+ sep +:+ join sep rest
  end.

End Py.

(** ** [posixpath] *)

Module PosixPath.

Definition sep : ascii := "/"%char.
Definition extsep : ascii := "."%char.

(** [posixpath.dirname]. *)
Definition dirname (p : string) : string :=
  let i := Py.rfind sep p + 1 in
  let head := Py.take_str (Z.to_nat i) p in
  if Py.truthy head && negb (Py.all_char sep head)
  then Py.rstrip sep head
  else head.

(** [posixpath.basename]. *)
Definition basename (p : string) : string :=
  let i := Py.rfind sep p + 1 in
  Py.drop_str (Z.to_nat i) p.

(** The loop of [genericpath._splitext] that skips leading dots: [n]
    is [dotIndex - filenameIndex], [rest] is [p[filenameIndex:]]. *)
Fixpoint splitext_loop (p : string) (dotIndex : Z) (n : nat) (rest : string)
  : option (string * string) :=
  match n with
  | O => None
  | S n' =>
      match rest with
      | EmptyString =>
          (* p[i:i+1] is empty past the end, hence differs from extsep *)
          Some (Py.take_str (Z.to_nat dotIndex) p, Py.drop_str (Z.to_nat dotIndex) p)
      | String a rest' =>
          if negb (Ascii.eqb a extsep)
          then Some (Py.take_str (Z.to_nat dotIndex) p, Py.drop_str (Z.to_nat dotIndex) p)
          else splitext_loop p dotIndex n' rest'
      end
  end.

(** [posixpath.splitext]. *)
Definition splitext (p : string) : string * string :=
  let sepIndex := Py.rfind sep p in
  let dotIndex := Py.rfind extsep p in
  if dotIndex >? sepIndex then
    let filenameIndex := sepIndex + 1 in
    match splitext_loop p dotIndex (Z.to_nat (dotIndex - filenameIndex))
                        (Py.drop_str (Z.to_nat filenameIndex) p) with
    | Some r => r
    | None => (p, EmptyString)
    end
  else (p, EmptyString).

(** [posixpath.join(a, b)]. *)
Definition join (a b : string) : string :=
  if Py.startswith sep b then b
  else if negb (Py.truthy a) || Py.endswith sep a then a +:+ b
  else a +:+ String sep EmptyString +:+ b.

End PosixPath.

(** ** The script *)

Definition COMMON_IMAGE_EXTS : list string :=
  [".png"; ".jpg"; ".jpeg"; ".tif"; ".tiff"; ".pdf"; ".bmp"]%string.

(** The dictionaries appended to [outputs] by [scan_outputs]. *)
Record OutputRecord := mkOutput {
  full : string;
  rel : string;
  basename : string;
  ext : string;
  kind : string;
  mtime : string
}.

(** The dictionaries appended to [rows] by [generate_report]. *)
Record ReportRow := mkRow {
  source_path : string;
  relative_path : string;
  row_basename : string;
  category : string;
  book_container : string;
  status : string;
  has_output : bool;
  num_outputs : nat;
  matched_outputs : string;
  notes : string
}.

(** [SKIP_LEADING] of [find_matches_for_source]; [generate_report] has the
    same set under the name [skip]. *)
Definition SKIP_LEADING : gset string :=
  {[ "ftp"; "data"; "source"; "files"; "input"; "in"; "out"; "output"; "tmp" ]}%string.

Definition skip : gset string :=
  {[ "ftp"; "data"; "source"; "files"; "input"; "in"; "out"; "output"; "tmp" ]}%string.

(** The test [p and p.lower() not in SKIP_LEADING]. *)
Definition keeps (wrappers : gset string) (p : string) : bool :=
  Py.truthy p && bool_decide (Py.lower p ∉ wrappers).

(** The [for i, p in enumerate(parts)] loop of [strip_leading]; the
    argument is [parts[i:]] at iteration [i]. *)
Fixpoint strip_leading_loop (parts_from_i : list string) : string :=
  match parts_from_i with
  | [] => EmptyString
  | p :: rest =>
      if keeps SKIP_LEADING p
      then Py.join (String PosixPath.sep EmptyString) parts_from_i
      else strip_leading_loop rest
  end.

Definition strip_leading (path : string) : string :=
  let parts := List.filter Py.truthy (Py.split PosixPath.sep path) in
  strip_leading_loop parts.

Definition find_matches_for_source
    (src_rel src_basename : string) (outputs : list OutputRecord)
  : list OutputRecord :=
  let src_dir := strip_leading (PosixPath.dirname src_rel) in
  fold_left
    (fun matches out =>
       let out_dir := strip_leading (PosixPath.dirname (rel out)) in
       if String.eqb out_dir src_dir && String.eqb (basename out) src_basename
       then matches ++ [out]
       else matches)
    outputs [].

Definition determine_status (match_kinds : list string) : string :=
  let kinds : gset string := list_to_set match_kinds in
  if bool_decide ("csv"%string ∈ kinds) then "ELABORATED"%string
  else if bool_decide ("timeout"%string ∈ kinds) then "TIMEOUT"%string
  else if bool_decide ("error"%string ∈ kinds) then "ERROR"%string
  else "NOT_ELABORATED"%string.

(** The classification chain of [scan_outputs], on the raw extension. *)
Definition classify (ext : string) : string :=
  if String.eqb (Py.lower ext) ".csv" then "csv"%string
  else if String.eqb (Py.lower ext) ".timeout" then "timeout"%string
  else if String.eqb (Py.lower ext) ".error" then "error"%string
  else "other"%string.

(** The loop of [generate_report] that looks for the category index:
    [Some i] when it breaks at index [i], [None] when it runs to the end. *)
Fixpoint category_loop (i : nat) (parts_from_i : list string) : option nat :=
  match parts_from_i with
  | [] => None
  | p :: rest =>
      if keeps skip p then Some i else category_loop (S i) rest
  end.

(** Lines 127-137 of the script: [(category, book_container)] of a
    relative path. *)
Definition category_container (rel : string) : string * string :=
  let parts := Py.split PosixPath.sep rel in
  let idx := match category_loop 0 parts with Some i => i | None => 0%nat end in
  let category :=
    if (idx <? length parts)%nat then nth idx parts EmptyString
    else EmptyString in
  let book_container :=
    if (idx + 1 <? length parts)%nat then nth (idx + 1) parts EmptyString
    else EmptyString in
  (category, book_container).

(** [f"{m['rel']} ({m['kind']}, {m['mtime']})"]. *)
Definition match_desc (m : OutputRecord) : string :=
  rel m +:+ " (" +:+ kind m +:+ ", " +:+ mtime m +:+ ")".

(** The extension list built by [main] from [--exts]. *)
Definition parse_exts (arg : string) : list string :=
  List.map
    (fun e => if Py.startswith "." e then Py.lower e
              else String "." (Py.lower e))
    (List.filter Py.truthy (Py.split "," arg)).

(** [rows.sort(key=lambda r: r['relative_path'])]: a stable sort on the
    code-point order of the key. *)
Fixpoint insert_row (r : ReportRow) (sorted : list ReportRow) : list ReportRow :=
  match sorted with
  | [] => [r]
  | r' :: rest =>
      if String.leb (relative_path r) (relative_path r')
      then r :: sorted
      else r' :: insert_row r rest
  end.

Definition sort_by_relative_path (rows : list ReportRow) : list ReportRow :=
  fold_right insert_row [] rows.

Section FileSystem.

(** Modification times as returned by [os.path.getmtime]. *)
Context {timestamp : Type}.

(** [os.walk(top)]: the [(root, dirs, files)] triples in visiting order. *)
Variable walk : string -> list (string * list string * list string).
(** [os.path.relpath(path, start)] and [os.path.abspath(path)]. *)
Variable relpath : string -> string -> string.
Variable abspath : string -> string.
(** [os.path.getmtime(path)]; [None] when it raises. *)
Variable getmtime : string -> option timestamp.
(** [datetime.fromtimestamp(t).isoformat(sep=' ', timespec='seconds')];
    [None] when it raises. *)
Variable isoformat : timestamp -> option string.

Definition iso_mtime (path : string) : string :=
  match getmtime path with
  | Some t =>
      match isoformat t with
      | Some s => s
      | None => EmptyString
      end
  | None => EmptyString
  end.

(** The dictionary built for file [f] of directory [root]; the local
    [typ] of the script is computed and never used. *)
Definition output_record (output_dir root f : string) : OutputRecord :=
  let full := PosixPath.join root f in
  let rel := relpath full output_dir in
  let '(name, ext) := PosixPath.splitext (PosixPath.basename f) in
  let kind := classify ext in
  {| full := full; rel := rel; basename := name; ext := Py.lower ext;
     kind := kind; mtime := iso_mtime full |}.

Definition scan_outputs (output_dir : string) : list OutputRecord :=
  fold_left
    (fun outputs '(root, _, files) =>
       fold_left
         (fun outputs f => outputs ++ [output_record output_dir root f])
         files outputs)
    (walk output_dir) [].

(** The body of the inner loop of [generate_report] after the extension
    filter: the row of file [f] of directory [root]. *)
Definition report_row (data_dir : string) (outputs : list OutputRecord)
    (root f : string) : ReportRow :=
  let full := PosixPath.join root f in
  let rel := relpath full data_dir in
  let basename := fst (PosixPath.splitext (PosixPath.basename f)) in
  let matches := find_matches_for_source rel basename outputs in
  let '(match_descs, kinds) :=
    fold_left
      (fun '(match_descs, kinds) m =>
         (match_descs ++ [match_desc m], kinds ++ [kind m]))
      matches ([], []) in
  let status := determine_status kinds in
  let num_outputs := length matches in
  let has_output := (0 <? num_outputs)%nat in
  let '(category, book_container) := category_container rel in
  {| source_path := abspath full;
     relative_path := rel;
     row_basename := basename;
     category := category;
     book_container := book_container;
     status := status;
     has_output := has_output;
     num_outputs := num_outputs;
     matched_outputs := Py.join "; " match_descs;
     notes := EmptyString |}.

(** The extension filter: [true] when the file is skipped by [continue]. *)
Definition filtered_out (exts : list string) (include_all : bool) (f : string) : bool :=
  let '(_, ext) := PosixPath.splitext f in
  negb include_all && bool_decide (Py.lower ext ∉ exts).

(** [generate_report] up to and including the sort: the final [rows]
    and [total_sources]. *)
Definition generate_report (data_dir output_dir : string) (exts : list string)
    (include_all sort_rows : bool) : list ReportRow * nat :=
  let outputs := scan_outputs output_dir in
  let '(rows, total_sources) :=
    fold_left
      (fun st '(root, _, files) =>
         fold_left
           (fun '(rows, total_sources) f =>
              if filtered_out exts include_all f then (rows, total_sources)
              else (rows ++ [report_row data_dir outputs root f],
                    S total_sources))
           files st)
      (walk data_dir) ([], 0%nat) in
  let rows := if sort_rows then sort_by_relative_path rows else rows in
  (rows, total_sources).

End FileSystem.

(** ** The extension filter with [str.lower] as a parameter *)

Section StrLower.

(** [str.lower], in full. *)
Variable str_lower : string → string.

(** The extension list built by [main] from [--exts]. *)
Definition parse_exts_with (arg : string) : list string :=
  List.map
    (fun e => if Py.startswith "." e then str_lower e
              else String "." (str_lower e))
    (List.filter Py.truthy (Py.split "," arg)).

(** The extension filter: [true] when the file is skipped by [continue]. *)
Definition filtered_out_with (exts : list string) (include_all : bool) (f : string)
  : bool :=
  let '(_, ext) := PosixPath.splitext f in
  negb include_all && bool_decide (str_lower ext ∉ exts).

Context {timestamp : Type}.
Variable walk : string -> list (string * list string * list string).
Variable relpath : string -> string -> string.
Variable abspath : string -> string.
Variable getmtime : string -> option timestamp.
Variable isoformat : timestamp -> option string.

(** [generate_report] up to and including the sort: the final [rows]
    and [total_sources]. *)
Definition generate_report_with (data_dir output_dir : string) (exts : list string)
    (include_all sort_rows : bool) : list ReportRow * nat :=
  let outputs := scan_outputs walk relpath getmtime isoformat output_dir in
  let '(rows, total_sources) :=
    fold_left
      (fun st '(root, _, files) =>
         fold_left
           (fun '(rows, total_sources) f =>
              if filtered_out_with exts include_all f then (rows, total_sources)
              else (rows ++ [report_row relpath abspath data_dir outputs root f],
                    S total_sources))
           files st)
      (walk data_dir) ([], 0%nat) in
  let rows := if sort_rows then sort_by_relative_path rows else rows in
  (rows, total_sources).

End StrLower.

(** ** Vocabulary of the specification *)

(** A wrapper segment: its lowercase form is in the fixed wrapper set. *)
Definition is_wrapper (p : string) : Prop := Py.lower p ∈ SKIP_LEADING.

Global Instance is_wrapper_dec (p : string) : Decision (is_wrapper p).
Proof. unfold is_wrapper. apply _. Defined.

(** [occurs c s]: the character [c] occurs in [s]. *)
Fixpoint occurs (c : ascii) (s : string) : bool :=
  match s with
  | EmptyString => false
  | String a s' => Ascii.eqb a c || occurs c s'
  end.

(** A path segment: non-empty and without separator. *)
Definition is_segment (s : string) : Prop :=
  Py.truthy s = true ∧ occurs PosixPath.sep s = false.

(** The non-empty segments of a path. *)
Definition segments (path : string) : list string :=
  List.filter Py.truthy (Py.split PosixPath.sep path).

(** The suffix that begins at the first segment that is not a wrapper. *)
Fixpoint drop_wrappers (segs : list string) : list string :=
  match segs with
  | [] => []
  | p :: rest => if decide (is_wrapper p) then drop_wrappers rest else segs
  end.

(** The normaliser as the specification words it. *)
Definition normalize_spec (path : string) : string :=
  Py.join "/" (drop_wrappers (segments path)).

(** The matching condition of the specification: equal normalised
    directories and equal basenames. *)
Definition same_place (src_rel src_basename : string) (out : OutputRecord) : Prop :=
  strip_leading (PosixPath.dirname (rel out)) = strip_leading (PosixPath.dirname src_rel)
  ∧ basename out = src_basename.

Global Instance same_place_dec (src_rel src_basename : string) (out : OutputRecord) :
  Decision (same_place src_rel src_basename out).
Proof. unfold same_place. apply _. Defined.

(** The matching condition in the words of the specification: equal
    normalised directories, by [normalize_spec], and equal basenames. *)
Definition matches_spec (src_rel src_basename : string) (out : OutputRecord) : Prop :=
  normalize_spec (PosixPath.dirname (rel out))
  = normalize_spec (PosixPath.dirname src_rel)
  ∧ basename out = src_basename.

Global Instance matches_spec_dec (src_rel src_basename : string) (out : OutputRecord) :
  Decision (matches_spec src_rel src_basename out).
Proof. unfold matches_spec. apply _. Defined.

(** The kind as a function of the lowercase extension. *)
Definition kind_of_extension (e : string) : string :=
  if decide (e = ".csv"%string) then "csv"%string
  else if decide (e = ".timeout"%string) then "timeout"%string
  else if decide (e = ".error"%string) then "error"%string
  else "other"%string.

(** The files listed by a walk, each with its directory, in visiting
    order. *)
Definition listed (entries : list (string * list string * list string))
  : list (string * string) :=
  entries ≫= (λ entry, (λ f, (entry.1.1, f)) <$> entry.2).

(** A source file passes the extension filter. *)
Definition passes_filter (exts : list string) (include_all : bool) (f : string) : Prop :=
  include_all = true ∨ Py.lower (PosixPath.splitext f).2 ∈ exts.

Global Instance passes_filter_dec (exts : list string) (include_all : bool) (f : string) :
  Decision (passes_filter exts include_all f).
Proof. unfold passes_filter. apply _. Defined.

(** The category and the container as the specification words them: the
    first and the second segment of the normalised relative directory,
    empty when absent. *)
Definition category_spec (rel : string) : string :=
  nth 0 (drop_wrappers (segments (PosixPath.dirname rel))) EmptyString.

Definition container_spec (rel : string) : string :=
  nth 1 (drop_wrappers (segments (PosixPath.dirname rel))) EmptyString.

(** A small file system on which the statements are exercised: a source
    tree under [data] and an output tree under [out]. *)
Module Fixture.

Definition walk (top : string) : list (string * list string * list string) :=
  if String.eqb top "data" then
    [ ("data", ["ftp"], ["img001.png"; "notes.txt"]);
      ("data/ftp", ["CategoryX"], []);
      ("data/ftp/CategoryX", ["Book1"], ["cover.PNG"]);
      ("data/ftp/CategoryX/Book1", [], ["img001.png"; "img002.png"; "img003.png"]) ]%string
  else if String.eqb top "out" then
    [ ("out", ["output"], []);
      ("out/output", ["CategoryX"], []);
      ("out/output/CategoryX", ["Book1"], ["cover.log"]);
      ("out/output/CategoryX/Book1", [], ["img001.csv"; "img001.error"; "img002.TIMEOUT"]) ]%string
  else [].

(** [relpath] on a path that lies under [start]. *)
Definition relpath (path start : string) : string :=
  Py.drop_str (S (String.length start)) path.

Definition abspath (path : string) : string := "/srv/" +:+ path.

(** One output file cannot be stat-ed. *)
Definition getmtime (path : string) : option Z :=
  if String.eqb path "out/output/CategoryX/Book1/img001.error" then None
  else Some 1700000000.

Definition isoformat (t : Z) : option string := Some "2023-11-14 22:13:20"%string.

Definition outputs : list OutputRecord :=
  scan_outputs walk relpath getmtime isoformat "out".

Definition report (exts : list string) (include_all sort_rows : bool)
  : list ReportRow * nat :=
  generate_report walk relpath abspath getmtime isoformat
    "data" "out" exts include_all sort_rows.

End Fixture.

(** ** The summary printed by [generate_report] *)

(** Python dictionaries with string keys: the items in insertion order. *)
Module Dict.

(** [d.get(k, default)]. *)
Fixpoint get {V : Type} (d : list (string * V)) (k : string) (default : V) : V :=
  match d with
  | [] => default
  | (k', v) :: d' => if String.eqb k' k then v else get d' k default
  end.

(** [d[k] = v]: an existing key keeps its place, a new key goes last. *)
Fixpoint set {V : Type} (d : list (string * V)) (k : string) (v : V) : list (string * V) :=
  match d with
  | [] => [(k, v)]
  | (k', v') :: d' => if String.eqb k' k then (k', v) :: d' else (k', v') :: set d' k v
  end.

Definition keys {V : Type} (d : list (string * V)) : list string := d.*1.

Definition values {V : Type} (d : list (string * V)) : list V := d.*2.

End Dict.

(** The dictionary [counts] after the loop over [rows]. *)
Definition counts (rows : list ReportRow) : list (string * nat) :=
  fold_left
    (λ counts r,
       Dict.set counts (status r) (Dict.get counts (status r) 0 + 1)%nat)
    rows
    [("ELABORATED", 0); ("ERROR", 0); ("TIMEOUT", 0); ("NOT_ELABORATED", 0)]%nat%string.

(** The dictionary [cat_counts] after the loop over [rows]. *)
Definition cat_counts (rows : list ReportRow) : list (string * nat) :=
  fold_left
    (λ cat_counts r,
       let cat := if Py.truthy (category r) then category r else "UNKNOWN"%string in
       Dict.set cat_counts cat (Dict.get cat_counts cat 0 + 1)%nat)
    rows [].

(** ** Vocabulary of the further properties *)

(** The precedence of a status. *)
Definition rank (status : string) : nat :=
  if String.eqb status "ELABORATED" then 3
  else if String.eqb status "TIMEOUT" then 2
  else if String.eqb status "ERROR" then 1
  else 0.

(** All characters of [s] are ASCII; on such strings [Py.lower] is
    [str.lower]. *)
Fixpoint is_ascii (s : string) : bool :=
  match s with
  | EmptyString => true
  | String a s' => (N_of_ascii a <? 128)%N && is_ascii s'
  end.

(** The key under which a row is counted in [cat_counts]. *)
Definition cat_key (r : ReportRow) : string :=
  if Py.truthy (category r) then category r else "UNKNOWN"%string.

(** The number of elements of [l] whose key is [k]. *)
Definition tally {A : Type} (key : A → string) (k : string) (l : list A) : nat :=
  length (filter (λ x, key x = k) l).

(** The keys of [l] in order of first occurrence. *)
Fixpoint first_occurrences (l : list string) (seen : list string) : list string :=
  match l with
  | [] => []
  | k :: l' =>
      if decide (k ∈ seen) then first_occurrences l' seen
      else k :: first_occurrences l' (seen ++ [k])
  end.

(** Rows in non-decreasing order of [relative_path]. *)
Definition path_le (r r' : ReportRow) : Prop :=
  String.leb (relative_path r) (relative_path r') = true.

(** The source tree of [Fixture], with the files of its top directory
    listed in the opposite order. *)
Module FixtureReordered.

Definition walk (top : string) : list (string * list string * list string) :=
  if String.eqb top "data" then
    [ ("data", ["ftp"], ["notes.txt"; "img001.png"]);
      ("data/ftp", ["CategoryX"], []);
      ("data/ftp/CategoryX", ["Book1"], ["cover.PNG"]);
      ("data/ftp/CategoryX/Book1", [], ["img001.png"; "img002.png"; "img003.png"]) ]%string
  else Fixture.walk top.

End FixtureReordered.

(** ** The primitives on concrete inputs *)

Example dirname_ex1 : PosixPath.dirname "ftp/A/B/file.png" = "ftp/A/B"%string.
Proof. reflexivity. Qed.
Example dirname_ex2 : PosixPath.dirname "file.png" = EmptyString.
Proof. reflexivity. Qed.
Example dirname_ex3 : PosixPath.dirname "/file.png" = "/"%string.
Proof. reflexivity. Qed.
Example dirname_ex4 : PosixPath.dirname "a//file.png" = "a"%string.
Proof. reflexivity. Qed.
Example splitext_ex1 : PosixPath.splitext "img001.PNG" = ("img001", ".PNG")%string.
Proof. reflexivity. Qed.
Example splitext_ex2 : PosixPath.splitext ".bashrc" = (".bashrc"%string, EmptyString).
Proof. reflexivity. Qed.
Example splitext_ex3 : PosixPath.splitext "a.tar.gz" = ("a.tar", ".gz")%string.
Proof. reflexivity. Qed.
Example splitext_ex4 : PosixPath.splitext "..x.y" = ("..x", ".y")%string.
Proof. reflexivity. Qed.
Example splitext_ex5 : PosixPath.splitext "data." = ("data", ".")%string.
Proof. reflexivity. Qed.
Example split_ex1 : Py.split "/" "a//b" = ["a"%string; EmptyString; "b"%string].
Proof. reflexivity. Qed.
Example split_ex2 : Py.split "/" EmptyString = [EmptyString].
Proof. reflexivity. Qed.
Example lower_ex1 : Py.lower "FtP.Png" = "ftp.png"%string.
Proof. reflexivity. Qed.

(** ** Facts about the string primitives *)

Section StringFacts.

Variable c : ascii.

Lemma split_not_nil (s : string) : Py.split c s ≠ [].
Proof.
  induction s as [|a s IH]; simpl; [done|].
  destruct (Ascii.eqb a c); [done|].
  destruct (Py.split c s); done.
Qed.

Lemma split_free (s : string) :
  Forall (λ w, occurs c w = false) (Py.split c s).
Proof.
  induction s as [|a s IH]; simpl.
  - by constructor.
  - destruct (Ascii.eqb a c) eqn:E.
    + by constructor.
    + destruct (Py.split c s) as [|w ws]; [by repeat constructor; simpl; rewrite E|].
      apply Forall_cons in IH as [Hw Hws].
      constructor; [simpl; by rewrite E, Hw|done].
Qed.

Lemma split_free_id (s : string) :
  occurs c s = false → Py.split c s = [s].
Proof.
  induction s as [|a s IH]; simpl; [done|].
  intros [Ha Hs]%orb_false_iff. rewrite Ha, (IH Hs). done.
Qed.

Lemma split_app_sep (w rest : string) :
  occurs c w = false →
  Py.split c (w +:+ String c rest) = w :: Py.split c rest.
Proof.
  induction w as [|a w IH]; simpl.
  - intros _. by rewrite Ascii.eqb_refl.
  - intros [Ha Hw]%orb_false_iff. rewrite Ha, (IH Hw). done.
Qed.

Lemma split_join (l : list string) :
  l ≠ [] → Forall (λ w, occurs c w = false) l →
  Py.split c (Py.join (String c EmptyString) l) = l.
Proof.
  induction l as [|x l IH]; [done|].
  intros _ [Hx Hl]%Forall_cons.
  destruct l as [|y l].
  - simpl. by apply split_free_id.
  - change (Py.join (String c EmptyString) (x :: y :: l))
      with (x +:+ String c (Py.join (String c EmptyString) (y :: l))).
    rewrite split_app_sep by done. by rewrite IH.
Qed.

End StringFacts.

Lemma append_cons (a : ascii) (s t : string) :
  String a s +:+ t = String a (s +:+ t).
Proof. reflexivity. Qed.

Lemma append_nil (t : string) : EmptyString +:+ t = t.
Proof. reflexivity. Qed.

Lemma truthy_app_l (s t : string) : Py.truthy s = true → Py.truthy (s +:+ t) = true.
Proof. by destruct s. Qed.

Lemma truthy_empty (s : string) : Py.truthy s = false ↔ s = EmptyString.
Proof. destruct s; split; done. Qed.

Lemma join_truthy (sp x : string) (l : list string) :
  Py.truthy x = true → Py.truthy (Py.join sp (x :: l)) = true.
Proof. intros Hx. destruct l; simpl; [done|]. by apply truthy_app_l. Qed.

Lemma lower_truthy (s : string) : Py.truthy (Py.lower s) = Py.truthy s.
Proof. by destruct s. Qed.

Lemma lower_ascii_idem (a : ascii) :
  Py.lower_ascii (Py.lower_ascii a) = Py.lower_ascii a.
Proof. destruct a as [[] [] [] [] [] [] [] []]; reflexivity. Qed.

Lemma lower_idem (s : string) : Py.lower (Py.lower s) = Py.lower s.
Proof. induction s as [|a s IH]; simpl; [done|]. by rewrite lower_ascii_idem, IH. Qed.

Lemma lower_ascii_sep (a : ascii) :
  Ascii.eqb (Py.lower_ascii a) PosixPath.sep = Ascii.eqb a PosixPath.sep.
Proof. destruct a as [[] [] [] [] [] [] [] []]; reflexivity. Qed.

Lemma lower_occurs_sep (s : string) :
  occurs PosixPath.sep (Py.lower s) = occurs PosixPath.sep s.
Proof. induction s as [|a s IH]; simpl; [done|]. by rewrite lower_ascii_sep, IH. Qed.

(** ** Facts about the wrapper set *)

Lemma elem_of_SKIP_LEADING (x : string) :
  x ∈ SKIP_LEADING ↔
  x ∈ ["ftp"; "data"; "source"; "files"; "input"; "in"; "out"; "output"; "tmp"]%string.
Proof.
  unfold SKIP_LEADING.
  rewrite !elem_of_union, !elem_of_singleton, !elem_of_cons, elem_of_nil.
  tauto.
Qed.

Lemma skip_eq : skip = SKIP_LEADING.
Proof. reflexivity. Qed.

Lemma is_wrapper_segment (p : string) : is_wrapper p → is_segment p.
Proof.
  unfold is_wrapper, is_segment. rewrite elem_of_SKIP_LEADING.
  rewrite <- lower_truthy, <- lower_occurs_sep.
  intros H. repeat (apply elem_of_cons in H as [-> | H]; [by vm_compute|]).
  by apply elem_of_nil in H.
Qed.

Lemma keeps_spec (p : string) :
  Py.truthy p = true →
  keeps SKIP_LEADING p = bool_decide (¬ is_wrapper p).
Proof. intros Hp. unfold keeps. rewrite Hp. reflexivity. Qed.

Lemma segments_truthy (path : string) :
  Forall (λ p, Py.truthy p = true) (segments path).
Proof.
  unfold segments. apply List.Forall_forall. intros p Hp.
  by apply List.filter_In in Hp as [_ Hp].
Qed.

Lemma segments_free (path : string) :
  Forall (λ p, occurs PosixPath.sep p = false) (segments path).
Proof.
  unfold segments. apply List.Forall_forall. intros p Hp.
  apply List.filter_In in Hp as [Hp _].
  pose proof (split_free PosixPath.sep path) as H.
  rewrite List.Forall_forall in H. by apply H.
Qed.

Lemma filter_truthy_id (l : list string) :
  Forall (λ p, Py.truthy p = true) l → List.filter Py.truthy l = l.
Proof.
  induction 1 as [|x l Hx _ IH]; simpl; [done|]. by rewrite Hx, IH.
Qed.

Lemma strip_leading_loop_drop (segs : list string) :
  Forall (λ p, Py.truthy p = true) segs →
  strip_leading_loop segs = Py.join "/" (drop_wrappers segs).
Proof.
  induction 1 as [|p segs Hp _ IH]; [done|].
  cbn [strip_leading_loop drop_wrappers].
  rewrite keeps_spec by done.
  destruct (decide (is_wrapper p)) as [Hw|Hw].
  - rewrite bool_decide_eq_false_2 by tauto. done.
  - rewrite bool_decide_eq_true_2 by done. done.
Qed.

Lemma drop_wrappers_all (segs : list string) :
  drop_wrappers segs = [] ↔ Forall is_wrapper segs.
Proof.
  induction segs as [|p segs IH]; simpl.
  - split; [by constructor|done].
  - destruct (decide (is_wrapper p)) as [Hw|Hw].
    + rewrite IH. split; [by constructor|by intros [_ ?]%Forall_cons].
    + split; [done|]. by intros [? _]%Forall_cons.
Qed.

Lemma drop_wrappers_suffix (segs : list string) :
  ∃ pre, segs = pre ++ drop_wrappers segs ∧ Forall is_wrapper pre ∧
         match drop_wrappers segs with
         | [] => True
         | p :: _ => ¬ is_wrapper p
         end.
Proof.
  induction segs as [|p segs (pre & Heq & Hpre & Hhd)]; simpl.
  - by exists [].
  - destruct (decide (is_wrapper p)) as [Hw|Hw].
    + exists (p :: pre). split_and!; [simpl; by rewrite <- Heq|by constructor|done].
    + by exists [].
Qed.

Lemma drop_wrappers_app (ws segs : list string) :
  Forall is_wrapper ws → drop_wrappers (ws ++ segs) = drop_wrappers segs.
Proof.
  induction 1 as [|w ws Hw _ IH]; simpl; [done|].
  by rewrite decide_True.
Qed.

Lemma drop_wrappers_fixed (segs : list string) :
  drop_wrappers (drop_wrappers segs) = drop_wrappers segs.
Proof.
  induction segs as [|p segs IH]; simpl; [done|].
  destruct (decide (is_wrapper p)) as [Hw|Hw]; [done|].
  simpl. by rewrite decide_False.
Qed.

Lemma drop_wrappers_Forall (P : string → Prop) (segs : list string) :
  Forall P segs → Forall P (drop_wrappers segs).
Proof.
  induction 1 as [|p segs Hp Hsegs IH]; simpl; [done|].
  destruct (decide (is_wrapper p)); [done|by constructor].
Qed.

Lemma strip_leading_normalize (path : string) :
  strip_leading path = normalize_spec path.
Proof.
  unfold strip_leading, normalize_spec.
  apply strip_leading_loop_drop, segments_truthy.
Qed.

Lemma segments_join (l : list string) :
  Forall is_segment l → segments (Py.join "/" l) = l.
Proof.
  intros Hl. destruct l as [|x l]; [reflexivity|].
  unfold segments.
  rewrite (split_join PosixPath.sep) by (done || (eapply Forall_impl; [exact Hl|by intros ? []])).
  apply filter_truthy_id. eapply Forall_impl; [exact Hl|by intros ? []].
Qed.

Lemma segments_are_segments (path : string) : Forall is_segment (segments path).
Proof.
  pose proof (segments_truthy path) as H1. pose proof (segments_free path) as H2.
  rewrite Forall_forall in *. intros p Hp. split; auto.
Qed.

(** ** Facts about [posixpath.dirname] *)

Section DirnameFacts.

Variable c : ascii.

Lemma rfind_opt_free (f : string) : occurs c f = false → Py.rfind_opt c f = None.
Proof.
  induction f as [|a f IH]; simpl; [done|].
  intros [Ha Hf]%orb_false_iff. by rewrite (IH Hf), Ha.
Qed.

Lemma rfind_opt_app (s f : string) :
  occurs c f = false →
  Py.rfind_opt c (s +:+ String c f) = Some (String.length s).
Proof.
  intros Hf. induction s as [|a s IH]; simpl.
  - by rewrite (rfind_opt_free f Hf), Ascii.eqb_refl.
  - by rewrite IH.
Qed.

Lemma take_str_app (s t : string) :
  Py.take_str (String.length s) (s +:+ t) = s.
Proof. induction s as [|a s IH]; simpl; [by destruct t|by rewrite IH]. Qed.

Lemma take_str_app_sep (s f : string) :
  Py.take_str (S (String.length s)) (s +:+ String c f) = s +:+ String c EmptyString.
Proof.
  induction s as [|a s IH]; [done|].
  rewrite !append_cons.
  change (Py.take_str (S (String.length (String a s))) (String a (s +:+ String c f)))
    with (String a (Py.take_str (S (String.length s)) (s +:+ String c f))).
  by rewrite IH.
Qed.

Lemma all_char_app_sep (s : string) :
  Py.truthy s = true → Py.endswith c s = false →
  Py.all_char c (s +:+ String c EmptyString) = false.
Proof.
  induction s as [|a s IH]; [done|]. intros _ He.
  destruct s as [|b s].
  - change (Ascii.eqb a c = false) in He.
    rewrite append_cons, append_nil. cbn [Py.all_char]. by rewrite He.
  - change (Py.endswith c (String a (String b s))) with (Py.endswith c (String b s)) in He.
    rewrite append_cons. cbn [Py.all_char].
    rewrite IH by done. apply andb_false_r.
Qed.

Lemma rstrip_app_sep (s : string) :
  Py.truthy s = true → Py.endswith c s = false →
  Py.rstrip c (s +:+ String c EmptyString) = s.
Proof.
  induction s as [|a s IH]; [done|]. intros _ He.
  destruct s as [|b s].
  - change (Ascii.eqb a c = false) in He.
    rewrite append_cons, append_nil. cbn [Py.rstrip]. by rewrite Ascii.eqb_refl, He.
  - change (Py.endswith c (String a (String b s))) with (Py.endswith c (String b s)) in He.
    rewrite append_cons. cbn [Py.rstrip].
    by rewrite IH.
Qed.

Lemma endswith_free (x : string) : occurs c x = false → Py.endswith c x = false.
Proof.
  induction x as [|a x IH]; [done|]. simpl. intros [Ha Hx]%orb_false_iff.
  destruct x; [done|]. by apply IH.
Qed.

Lemma endswith_app (s t : string) :
  Py.truthy t = true → Py.endswith c (s +:+ t) = Py.endswith c t.
Proof.
  intros Ht. induction s as [|a s IH]; [done|].
  rewrite append_cons. destruct t as [|b t]; [done|].
  destruct s as [|a' s]; [done|].
  rewrite append_cons in *. done.
Qed.

End DirnameFacts.

Lemma dirname_free (f : string) :
  occurs PosixPath.sep f = false → PosixPath.dirname f = EmptyString.
Proof.
  intros Hf. unfold PosixPath.dirname, Py.rfind.
  by rewrite (rfind_opt_free _ _ Hf).
Qed.

Lemma dirname_app (s f : string) :
  Py.truthy s = true → Py.endswith PosixPath.sep s = false →
  occurs PosixPath.sep f = false →
  PosixPath.dirname (s +:+ String PosixPath.sep f) = s.
Proof.
  intros Hs He Hf. unfold PosixPath.dirname, Py.rfind.
  rewrite (rfind_opt_app _ _ _ Hf).
  replace (Z.to_nat (Z.of_nat (String.length s) + 1)) with (S (String.length s)) by lia.
  rewrite take_str_app_sep.
  rewrite truthy_app_l, all_char_app_sep by done.
  by apply rstrip_app_sep.
Qed.

Lemma join_snoc (l : list string) (x f : string) :
  Py.join "/" ((x :: l) ++ [f]) = Py.join "/" (x :: l) +:+ String PosixPath.sep f.
Proof.
  revert x. induction l as [|y l IH]; intros x; [done|].
  change (Py.join "/" ((x :: y :: l) ++ [f]))
    with (x +:+ String "/" (Py.join "/" ((y :: l) ++ [f]))).
  rewrite IH.
  change (Py.join "/" (x :: y :: l)) with (x +:+ String "/" (Py.join "/" (y :: l))).
  generalize (Py.join "/" (y :: l)). intros j.
  induction x as [|a x IHx]; [done|]. rewrite !append_cons. by rewrite IHx.
Qed.

Lemma join_endswith (l : list string) (x : string) :
  Forall is_segment (x :: l) →
  Py.endswith PosixPath.sep (Py.join "/" (x :: l)) = false.
Proof.
  revert x. induction l as [|y l IH]; intros x [[Hx Hfx] Hl]%Forall_cons.
  - by apply endswith_free.
  - change (Py.join "/" (x :: y :: l)) with (x +:+ String "/" (Py.join "/" (y :: l))).
    rewrite endswith_app by done.
    specialize (IH y Hl).
    assert (Py.truthy (Py.join "/" (y :: l)) = true) as Ht.
    { apply join_truthy. by apply Forall_cons in Hl as [[? _] _]. }
    destruct (Py.join "/" (y :: l)); done.
Qed.

Lemma dirname_join (l : list string) (f : string) :
  Forall is_segment l → occurs PosixPath.sep f = false →
  PosixPath.dirname (Py.join "/" (l ++ [f])) = Py.join "/" l.
Proof.
  intros Hl Hf. destruct l as [|x l].
  - by apply dirname_free.
  - rewrite join_snoc. apply dirname_app; [|by apply join_endswith|done].
    apply join_truthy. by apply Forall_cons in Hl as [[? _] _].
Qed.

(** ** The path normaliser *)

(** C3: [strip_leading] splits the path into its non-empty segments and
    returns, joined by the separator, the suffix that begins at the first
    segment whose lowercase form is not in the wrapper set; the result is
    empty for the empty path and for a path made of wrapper segments only,
    and an empty result is matched exactly by the paths whose segments
    are all wrappers (the empty path, which has no segment, among them). *)
Theorem strip_leading_suffix (path : string) :
  let segs := List.filter Py.truthy (Py.split PosixPath.sep path) in
  Forall (λ p, p ≠ EmptyString) segs
  ∧ (∃ pre suf,
        segs = pre ++ suf ∧ Forall is_wrapper pre
        ∧ match suf with [] => True | p :: _ => ¬ is_wrapper p end
        ∧ strip_leading path = Py.join "/" suf)
  ∧ strip_leading path = normalize_spec path
  ∧ (path = EmptyString ∨ Forall is_wrapper segs → strip_leading path = EmptyString)
  ∧ (strip_leading path = EmptyString → Forall is_wrapper segs)
  ∧ (∀ q, strip_leading path = EmptyString →
          (strip_leading q = strip_leading path ↔ Forall is_wrapper (segments q))).
Proof.
  intros segs. fold (segments path) in segs.
  assert (∀ q, strip_leading q = EmptyString ↔ Forall is_wrapper (segments q)) as Hempty.
  { intros q. rewrite strip_leading_normalize. unfold normalize_spec.
    rewrite <- drop_wrappers_all.
    pose proof (drop_wrappers_Forall _ _ (segments_truthy q)) as Ht.
    destruct (drop_wrappers (segments q)) as [|p rest]; [done|].
    apply Forall_cons in Ht as [Hp _]. split; [|done].
    intros Hj. pose proof (join_truthy "/" p rest Hp) as Hjt.
    by rewrite Hj in Hjt. }
  split_and!.
  - eapply Forall_impl; [apply segments_truthy|]. by intros [|] ?.
  - destruct (drop_wrappers_suffix segs) as (pre & Heq & Hpre & Hhd).
    exists pre, (drop_wrappers segs). split_and!; try done.
    apply strip_leading_normalize.
  - apply strip_leading_normalize.
  - intros [-> | Hall]; [reflexivity|]. by apply Hempty.
  - apply Hempty.
  - intros q Hp. rewrite Hp. apply Hempty.
Qed.

Lemma strip_leading_suffix_witness :
  strip_leading "ftp/Data//tmp/" = EmptyString
  ∧ (strip_leading "OUT/in" = strip_leading "ftp/Data//tmp/"
     ↔ Forall is_wrapper (segments "OUT/in")).
Proof.
  pose proof (strip_leading_suffix "ftp/Data//tmp/") as (_ & _ & _ & _ & _ & H).
  assert (strip_leading "ftp/Data//tmp/" = EmptyString) as E by (vm_compute; reflexivity).
  split; [exact E|]. exact (H "OUT/in"%string E).
Defined.

(** C6: normalising a normalised path changes nothing. *)
Theorem strip_leading_idempotent (p : string) :
  strip_leading (strip_leading p) = strip_leading p.
Proof.
  rewrite !strip_leading_normalize. unfold normalize_spec.
  rewrite segments_join, drop_wrappers_fixed; [done|].
  apply drop_wrappers_Forall, segments_are_segments.
Qed.

(** ** The matcher *)

Lemma find_matches_fold (src_rel src_basename : string)
    (outputs acc : list OutputRecord) :
  fold_left
    (λ matches out,
       if String.eqb (strip_leading (PosixPath.dirname (rel out)))
                     (strip_leading (PosixPath.dirname src_rel))
          && String.eqb (basename out) src_basename
       then matches ++ [out] else matches)
    outputs acc
  = acc ++ filter (same_place src_rel src_basename) outputs.
Proof.
  revert acc. induction outputs as [|out outputs IH]; intros acc; simpl.
  - by rewrite app_nil_r.
  - rewrite IH. destruct (decide (same_place src_rel src_basename out)) as [[Hd Hb]|Hn].
    + rewrite filter_cons_True by done.
      rewrite (proj2 (String.eqb_eq _ _) Hd), (proj2 (String.eqb_eq _ _) Hb).
      simpl. by rewrite <- app_assoc.
    + rewrite filter_cons_False by done.
      destruct (String.eqb _ _) eqn:E1; [|done].
      destruct (String.eqb (basename out) _) eqn:E2; [|done].
      apply String.eqb_eq in E1, E2. by destruct Hn.
Qed.

Lemma find_matches_filter (src_rel src_basename : string) (outputs : list OutputRecord) :
  find_matches_for_source src_rel src_basename outputs
  = filter (same_place src_rel src_basename) outputs.
Proof. unfold find_matches_for_source. by rewrite find_matches_fold. Qed.

Lemma strip_leading_join (ws mid : list string) :
  Forall is_wrapper ws → Forall is_segment mid →
  strip_leading (Py.join "/" (ws ++ mid)) = Py.join "/" (drop_wrappers mid).
Proof.
  intros Hws Hmid. rewrite strip_leading_normalize. unfold normalize_spec.
  rewrite segments_join.
  - by rewrite drop_wrappers_app.
  - apply Forall_app. split; [|done].
    eapply Forall_impl; [exact Hws|]. apply is_wrapper_segment.
Qed.

Lemma strip_leading_dirname_join (ws mid : list string) (f : string) :
  Forall is_wrapper ws → Forall is_segment mid → occurs PosixPath.sep f = false →
  strip_leading (PosixPath.dirname (Py.join "/" (ws ++ mid ++ [f])))
  = Py.join "/" (drop_wrappers mid).
Proof.
  intros Hws Hmid Hf. rewrite app_assoc, dirname_join; [by apply strip_leading_join| |done].
  apply Forall_app. split; [|done].
  eapply Forall_impl; [exact Hws|]. apply is_wrapper_segment.
Qed.

Lemma join_segments_inj (l l' : list string) :
  Forall is_segment l → Forall is_segment l' →
  Py.join "/" l = Py.join "/" l' → l = l'.
Proof.
  intros Hl Hl' Heq.
  by rewrite <- (segments_join l Hl), <- (segments_join l' Hl'), Heq.
Qed.

(** C1: [find_matches_for_source] returns, in order and with their
    multiplicity, exactly the output records whose normalised directory
    (the non-empty segments of the directory, without the leading
    wrappers) equals the normalised directory of the source path and
    whose basename equals the source basename.  For a source
    [ws/mid/f] and an output [ws'/mid'/f'] with wrapper prefixes [ws]
    and [ws'] this means: they match exactly when [mid] and [mid'] are
    equal after their leading wrappers and the basenames are equal; so
    [ftp/A/B/file.png] and [data/A/B/file.csv] match whichever wrappers
    each side uses. *)
Theorem find_matches_exact (src_rel src_basename : string) (outputs : list OutputRecord) :
  find_matches_for_source src_rel src_basename outputs
  = filter (matches_spec src_rel src_basename) outputs
  ∧ (∀ out, out ∈ find_matches_for_source src_rel src_basename outputs
            ↔ out ∈ outputs
              ∧ normalize_spec (PosixPath.dirname (rel out))
                = normalize_spec (PosixPath.dirname src_rel)
              ∧ basename out = src_basename)
  ∧ (∀ ws_src ws_out mid_src mid_out f_src f_out out,
       Forall is_wrapper ws_src → Forall is_wrapper ws_out →
       Forall is_segment mid_src → Forall is_segment mid_out →
       occurs PosixPath.sep f_src = false → occurs PosixPath.sep f_out = false →
       src_rel = Py.join "/" (ws_src ++ mid_src ++ [f_src]) →
       rel out = Py.join "/" (ws_out ++ mid_out ++ [f_out]) →
       out ∈ outputs →
       (out ∈ find_matches_for_source src_rel src_basename outputs
        ↔ drop_wrappers mid_src = drop_wrappers mid_out
          ∧ basename out = src_basename))
  ∧ (∀ ws_src ws_out mid f_src f_out out,
       Forall is_wrapper ws_src → Forall is_wrapper ws_out →
       Forall is_segment mid →
       occurs PosixPath.sep f_src = false → occurs PosixPath.sep f_out = false →
       src_rel = Py.join "/" (ws_src ++ mid ++ [f_src]) →
       rel out = Py.join "/" (ws_out ++ mid ++ [f_out]) →
       basename out = src_basename →
       out ∈ outputs →
       out ∈ find_matches_for_source src_rel src_basename outputs)
  ∧ (let record (rel base : string) :=
       {| full := rel; rel := rel; basename := base; ext := ".csv";
          kind := "csv"; mtime := EmptyString |} in
     find_matches_for_source "ftp/A/B/file.png" "file"
       [ record "data/A/file.csv" "file";
         record "out/A/B/file.csv" "file";
         record "data/A/B/File.csv" "File";
         record "data/a/b/file.csv" "file";
         record "A/B/C/file.csv" "file";
         record "output/tmp/A/B/file.csv" "file" ]%string
     = [ record "out/A/B/file.csv" "file";
         record "output/tmp/A/B/file.csv" "file" ]%string).
Proof.
  assert (∀ out, same_place src_rel src_basename out
                 ↔ matches_spec src_rel src_basename out) as Hspec.
  { intros out. unfold same_place, matches_spec.
    by rewrite !strip_leading_normalize. }
  assert (∀ out, out ∈ find_matches_for_source src_rel src_basename outputs
                 ↔ out ∈ outputs ∧ matches_spec src_rel src_basename out) as Helem.
  { intros out. rewrite find_matches_filter, list_elem_of_filter, Hspec. tauto. }
  assert (∀ ws_src ws_out mid_src mid_out f_src f_out out,
            Forall is_wrapper ws_src → Forall is_wrapper ws_out →
            Forall is_segment mid_src → Forall is_segment mid_out →
            occurs PosixPath.sep f_src = false → occurs PosixPath.sep f_out = false →
            src_rel = Py.join "/" (ws_src ++ mid_src ++ [f_src]) →
            rel out = Py.join "/" (ws_out ++ mid_out ++ [f_out]) →
            out ∈ outputs →
            (out ∈ find_matches_for_source src_rel src_basename outputs
             ↔ drop_wrappers mid_src = drop_wrappers mid_out
               ∧ basename out = src_basename)) as Hlists.
  { intros ws_src ws_out mid_src mid_out f_src f_out out
      Hs Ho Hms Hmo Hfs Hfo Hsrc Hrel Hin.
    rewrite Helem. unfold matches_spec.
    rewrite <- !strip_leading_normalize, Hsrc, Hrel.
    rewrite !strip_leading_dirname_join by done.
    split.
    - intros (_ & Hjoin & Hb). split; [|done]. symmetry.
      by apply join_segments_inj; [apply drop_wrappers_Forall..|].
    - intros [Hmid Hb]. by rewrite Hmid. }
  split_and!.
  - rewrite find_matches_filter. apply list_filter_iff, Hspec.
  - intros out. rewrite Helem. unfold matches_spec. tauto.
  - exact Hlists.
  - intros ws_src ws_out mid f_src f_out out Hs Ho Hmid Hfs Hfo Hsrc Hrel Hb Hin.
    by apply (Hlists ws_src ws_out mid mid f_src f_out out).
  - vm_compute. reflexivity.
Qed.

Lemma find_matches_exact_witness :
  let out := mkOutput "out/data/A/B/file.csv" "data/A/B/file.csv" "file" ".csv" "csv" EmptyString in
  let other := mkOutput "out/data/A/file.csv" "data/A/file.csv" "file" ".csv" "csv" EmptyString in
  out ∈ find_matches_for_source "ftp/A/B/file.png" "file" [other; out]
  ∧ other ∉ find_matches_for_source "ftp/A/B/file.png" "file" [other; out].
Proof.
  intros out other.
  pose proof (find_matches_exact "ftp/A/B/file.png" "file" [other; out])
    as (_ & _ & Hlists & _).
  split.
  - apply (Hlists ["ftp"%string] ["data"%string]
             ["A"%string; "B"%string] ["A"%string; "B"%string]
             "file.png"%string "file.csv"%string out).
    + repeat constructor; by vm_compute.
    + repeat constructor; by vm_compute.
    + repeat constructor.
    + repeat constructor.
    + reflexivity.
    + reflexivity.
    + reflexivity.
    + reflexivity.
    + apply elem_of_cons. right. apply elem_of_cons. by left.
    + split; reflexivity.
  - intros Hin.
    apply (Hlists ["ftp"%string] ["data"%string]
             ["A"%string; "B"%string] ["A"%string]
             "file.png"%string "file.csv"%string other) in Hin as [Hmid _].
    + vm_compute in Hmid. discriminate.
    + repeat constructor; by vm_compute.
    + repeat constructor; by vm_compute.
    + repeat constructor.
    + repeat constructor.
    + reflexivity.
    + reflexivity.
    + reflexivity.
    + reflexivity.
    + apply elem_of_cons. by left.
Defined.

(** ** The status resolver *)

Lemma determine_status_cases (match_kinds : list string) :
  determine_status match_kinds =
    if decide ("csv"%string ∈ match_kinds) then "ELABORATED"%string
    else if decide ("timeout"%string ∈ match_kinds) then "TIMEOUT"%string
    else if decide ("error"%string ∈ match_kinds) then "ERROR"%string
    else "NOT_ELABORATED"%string.
Proof.
  unfold determine_status.
  repeat match goal with
  | |- context [bool_decide (?k ∈ list_to_set ?l)] =>
      rewrite (bool_decide_ext (k ∈ list_to_set (C:=gset string) l) (k ∈ l))
        by apply elem_of_list_to_set
  end.
  unfold bool_decide.
  repeat (destruct (decide_rel _ _ _)); repeat (destruct (decide _)); done.
Qed.

(** C2: [determine_status] is defined on every list of kinds, returns one
    of the four statuses, follows the precedence csv, timeout, error, and
    gives equal results on lists with the same elements. *)
Theorem determine_status_precedence (match_kinds : list string) :
  determine_status match_kinds
    ∈ ["ELABORATED"; "TIMEOUT"; "ERROR"; "NOT_ELABORATED"]%string
  ∧ ("csv"%string ∈ match_kinds → determine_status match_kinds = "ELABORATED"%string)
  ∧ ("csv"%string ∉ match_kinds → "timeout"%string ∈ match_kinds →
       determine_status match_kinds = "TIMEOUT"%string)
  ∧ ("csv"%string ∉ match_kinds → "timeout"%string ∉ match_kinds →
     "error"%string ∈ match_kinds →
       determine_status match_kinds = "ERROR"%string)
  ∧ ("csv"%string ∉ match_kinds → "timeout"%string ∉ match_kinds →
     "error"%string ∉ match_kinds →
       determine_status match_kinds = "NOT_ELABORATED"%string)
  ∧ (∀ other_kinds : list string,
       (∀ k, k ∈ match_kinds ↔ k ∈ other_kinds) →
       determine_status match_kinds = determine_status other_kinds)
  ∧ determine_status ["error"; "timeout"]%string = "TIMEOUT"%string
  ∧ determine_status ["csv"; "error"; "timeout"]%string = "ELABORATED"%string
  ∧ determine_status ["other"]%string = "NOT_ELABORATED"%string
  ∧ determine_status [] = "NOT_ELABORATED"%string.
Proof.
  split_and!; try (vm_compute; reflexivity).
  - rewrite determine_status_cases.
    repeat case_decide; rewrite !elem_of_cons; tauto.
  - intros H. rewrite determine_status_cases. by rewrite decide_True.
  - intros H1 H2. rewrite determine_status_cases.
    rewrite decide_False by done. by rewrite decide_True.
  - intros H1 H2 H3. rewrite determine_status_cases.
    do 2 (rewrite decide_False by done). by rewrite decide_True.
  - intros H1 H2 H3. rewrite determine_status_cases.
    by do 3 (rewrite decide_False by done).
  - intros other_kinds Hsame. rewrite !determine_status_cases.
    repeat case_decide; rewrite ?Hsame in *; tauto.
Qed.

Lemma determine_status_precedence_witness :
  determine_status ["timeout"; "error"; "other"; "error"]%string = "TIMEOUT"%string
  ∧ determine_status ["timeout"; "error"; "other"; "error"]%string
    = determine_status ["other"; "error"; "timeout"]%string.
Proof.
  pose proof (determine_status_precedence ["timeout"; "error"; "other"; "error"]%string)
    as (_ & _ & Htimeout & _ & _ & Hset & _).
  split.
  - apply Htimeout.
    + rewrite !elem_of_cons, elem_of_nil. intros [?|[?|[?|[?|[]]]]]; discriminate.
    + apply elem_of_cons. by left.
  - apply Hset. intros k. rewrite !elem_of_cons, !elem_of_nil. tauto.
Defined.

(** ** The two traversals *)

Lemma append_loop {A B : Type} (g : B → A) (l : list B) (acc : list A) :
  fold_left (λ acc x, acc ++ [g x]) l acc = acc ++ (g <$> l).
Proof.
  revert acc. induction l as [|x l IH]; intros acc; simpl.
  - by rewrite app_nil_r.
  - by rewrite IH, <- app_assoc.
Qed.

Lemma filtered_out_true (exts : list string) (include_all : bool) (f : string) :
  filtered_out exts include_all f = true ↔ ¬ passes_filter exts include_all f.
Proof.
  unfold filtered_out, passes_filter.
  destruct (PosixPath.splitext f) as [name e]. cbn [snd].
  rewrite andb_true_iff, negb_true_iff, bool_decide_eq_true.
  destruct include_all; intuition congruence.
Qed.

Lemma filtered_out_spec (exts : list string) (include_all : bool) (f : string) :
  filtered_out exts include_all f = bool_decide (¬ passes_filter exts include_all f).
Proof.
  pose proof (filtered_out_true exts include_all f) as H.
  destruct (filtered_out exts include_all f); symmetry.
  - apply bool_decide_eq_true. by apply H.
  - apply bool_decide_eq_false. intros Hn. by apply H in Hn.
Qed.

Section TraversalFacts.

Context {timestamp : Type}.
Variable walk : string → list (string * list string * list string).
Variable relpath : string → string → string.
Variable abspath : string → string.
Variable getmtime : string → option timestamp.
Variable isoformat : timestamp → option string.

Lemma scan_outputs_loop (output_dir : string)
    (entries : list (string * list string * list string))
    (acc : list OutputRecord) :
  fold_left
    (λ outputs '(root, _, files),
       fold_left
         (λ outputs f,
            outputs ++ [output_record relpath getmtime isoformat output_dir root f])
         files outputs)
    entries acc
  = acc ++ ((λ rf, output_record relpath getmtime isoformat output_dir rf.1 rf.2)
              <$> listed entries).
Proof.
  revert acc. unfold listed.
  induction entries as [|[[root dirs] files] entries IH]; intros acc.
  - simpl. by rewrite app_nil_r.
  - cbn [fold_left].
    rewrite (append_loop (output_record relpath getmtime isoformat output_dir root)), IH.
    rewrite bind_cons, fmap_app, <- list_fmap_compose, app_assoc. done.
Qed.

Lemma scan_outputs_listed (output_dir : string) :
  scan_outputs walk relpath getmtime isoformat output_dir
  = (λ rf, output_record relpath getmtime isoformat output_dir rf.1 rf.2)
      <$> listed (walk output_dir).
Proof. unfold scan_outputs. by rewrite scan_outputs_loop. Qed.

Lemma generate_report_loop (data_dir : string) (outputs : list OutputRecord)
    (exts : list string) (include_all : bool)
    (entries : list (string * list string * list string))
    (rows : list ReportRow) (total : nat) :
  fold_left
    (λ st '(root, _, files),
       fold_left
         (λ '(rows, total_sources) f,
            if filtered_out exts include_all f then (rows, total_sources)
            else (rows ++ [report_row relpath abspath data_dir outputs root f],
                  S total_sources))
         files st)
    entries (rows, total)
  = let new := (λ rf, report_row relpath abspath data_dir outputs rf.1 rf.2)
                 <$> filter (λ rf, passes_filter exts include_all rf.2) (listed entries) in
    (rows ++ new, (total + length new)%nat).
Proof.
  cbv zeta. revert rows total. unfold listed.
  induction entries as [|[[root dirs] files] entries IH]; intros rows total.
  - simpl. by rewrite app_nil_r, Nat.add_0_r.
  - cbn [fold_left]. rewrite bind_cons, filter_app, fmap_app.
    cbn [fst snd].
    assert (∀ rows total,
      fold_left
        (λ '(rows, total_sources) f,
           if filtered_out exts include_all f then (rows, total_sources)
           else (rows ++ [report_row relpath abspath data_dir outputs root f],
                 S total_sources))
        files (rows, total)
      = let new := (λ rf, report_row relpath abspath data_dir outputs rf.1 rf.2)
                     <$> filter (λ rf, passes_filter exts include_all rf.2)
                           ((λ f, (root, f)) <$> files) in
        (rows ++ new, (total + length new)%nat)) as Hinner.
    { clear. induction files as [|f files IHf]; intros rows total; cbv zeta.
      - simpl. by rewrite app_nil_r, Nat.add_0_r.
      - cbn [fold_left]. rewrite filtered_out_spec, fmap_cons.
        destruct (decide (passes_filter exts include_all f)) as [Hp|Hp].
        + rewrite bool_decide_eq_false_2 by tauto.
          rewrite filter_cons_True by done. rewrite IHf. cbv zeta.
          rewrite fmap_cons, <- app_assoc. simpl. f_equal. lia.
        + rewrite bool_decide_eq_true_2 by done.
          rewrite filter_cons_False by done. by rewrite IHf. }
    rewrite Hinner. cbv zeta. rewrite IH.
    rewrite <- app_assoc, length_app. f_equal. lia.
Qed.

Lemma generate_report_rows (data_dir output_dir : string) (exts : list string)
    (include_all sort_rows : bool) :
  generate_report walk relpath abspath getmtime isoformat
    data_dir output_dir exts include_all sort_rows
  = let rows :=
      (λ rf, report_row relpath abspath data_dir
               (scan_outputs walk relpath getmtime isoformat output_dir) rf.1 rf.2)
        <$> filter (λ rf, passes_filter exts include_all rf.2) (listed (walk data_dir)) in
    (if sort_rows then sort_by_relative_path rows else rows, length rows).
Proof.
  unfold generate_report. rewrite generate_report_loop. cbv zeta.
  rewrite app_nil_l. reflexivity.
Qed.

End TraversalFacts.

Lemma insert_row_perm (r : ReportRow) (rows : list ReportRow) :
  insert_row r rows ≡ₚ r :: rows.
Proof.
  induction rows as [|r' rows IH]; simpl; [done|].
  destruct (String.leb _ _); [done|].
  rewrite IH. apply Permutation_swap.
Qed.

Lemma sort_by_relative_path_perm (rows : list ReportRow) :
  sort_by_relative_path rows ≡ₚ rows.
Proof.
  induction rows as [|r rows IH]; simpl; [done|].
  by rewrite insert_row_perm, IH.
Qed.

(** ** The output indexer *)

Lemma classify_lower (e : string) : classify e = kind_of_extension (Py.lower e).
Proof.
  unfold classify, kind_of_extension.
  generalize (Py.lower e). intros x.
  destruct (String.eqb_spec x ".csv") as [->|H1]; [reflexivity|].
  destruct (String.eqb_spec x ".timeout") as [->|H2]; [reflexivity|].
  destruct (String.eqb_spec x ".error") as [->|H3]; [reflexivity|].
  by do 3 (rewrite decide_False by done).
Qed.

Section IndexerFacts.

Context {timestamp : Type}.
Variable walk : string → list (string * list string * list string).
Variable relpath : string → string → string.
Variable getmtime : string → option timestamp.
Variable isoformat : timestamp → option string.

Lemma scan_outputs_elem (output_dir : string) (r : OutputRecord) :
  r ∈ scan_outputs walk relpath getmtime isoformat output_dir
  ↔ ∃ root f, (root, f) ∈ listed (walk output_dir)
              ∧ r = output_record relpath getmtime isoformat output_dir root f.
Proof.
  rewrite scan_outputs_listed, list_elem_of_fmap. split.
  - intros ([root f] & -> & Hin). by exists root, f.
  - intros (root & f & Hin & ->). by exists (root, f).
Qed.




End IndexerFacts.



(** ** The report assembler *)

Lemma parse_exts_shape (arg : string) :
  Forall (λ e, Py.startswith "." e = true ∧ Py.lower e = e) (parse_exts arg).
Proof.
  unfold parse_exts. apply List.Forall_forall. intros e He.
  apply List.in_map_iff in He as (e0 & <- & _).
  destruct (Py.startswith "." e0) eqn:Hdot.
  - split; [|apply lower_idem]. destruct e0 as [|a e0]; [done|].
    simpl in Hdot. apply Ascii.eqb_eq in Hdot as ->. reflexivity.
  - split; [reflexivity|]. simpl. by rewrite lower_idem.
Qed.

Lemma match_loop (matches : list OutputRecord) (descs kinds : list string) :
  fold_left
    (λ '(match_descs, kinds) m, (match_descs ++ [match_desc m], kinds ++ [kind m]))
    matches (descs, kinds)
  = (descs ++ (match_desc <$> matches), kinds ++ (kind <$> matches)).
Proof.
  revert descs kinds. induction matches as [|m matches IH]; intros descs kinds; simpl.
  - by rewrite !app_nil_r.
  - by rewrite IH, <- !app_assoc.
Qed.

Lemma determine_status_nil : determine_status [] = "NOT_ELABORATED"%string.
Proof. vm_compute. reflexivity. Qed.

Lemma determine_status_other (kinds : list string) :
  Forall (λ k, k = "other"%string) kinds →
  determine_status kinds = "NOT_ELABORATED"%string.
Proof.
  intros Hall. rewrite determine_status_cases.
  rewrite Forall_forall in Hall.
  repeat case_decide;
    try match goal with H : _ ∈ kinds |- _ => apply Hall in H; discriminate end.
  done.
Qed.

Lemma filter_all {A : Type} (P : A → Prop) `{!∀ x, Decision (P x)} (l : list A) :
  (∀ x, P x) → filter P l = l.
Proof.
  intros HP. induction l as [|x l IH]; [done|].
  rewrite filter_cons_True by done. by rewrite IH.
Qed.

Section AssemblerFacts.

Context {timestamp : Type}.
Variable walk : string → list (string * list string * list string).
Variable relpath : string → string → string.
Variable abspath : string → string.
Variable getmtime : string → option timestamp.
Variable isoformat : timestamp → option string.

Lemma report_row_fields (data_dir : string) (outputs : list OutputRecord)
    (root f : string) :
  let rel := relpath (PosixPath.join root f) data_dir in
  let matches :=
    find_matches_for_source rel (PosixPath.splitext (PosixPath.basename f)).1 outputs in
  let row := report_row relpath abspath data_dir outputs root f in
  relative_path row = rel
  ∧ status row = determine_status (kind <$> matches)
  ∧ num_outputs row = length matches
  ∧ has_output row = (0 <? length matches)%nat
  ∧ (category row, book_container row) = category_container rel
  ∧ matched_outputs row = Py.join "; " (match_desc <$> matches)
  ∧ notes row = EmptyString.
Proof.
  cbv zeta. unfold report_row. rewrite match_loop.
  destruct (category_container _) as [cat cont]. done.
Qed.

Lemma generate_report_elem (data_dir output_dir : string) (exts : list string)
    (include_all sort_rows : bool) (row : ReportRow) :
  row ∈ (generate_report walk relpath abspath getmtime isoformat
           data_dir output_dir exts include_all sort_rows).1
  ↔ ∃ root f, (root, f) ∈ listed (walk data_dir)
              ∧ passes_filter exts include_all f
              ∧ row = report_row relpath abspath data_dir
                        (scan_outputs walk relpath getmtime isoformat output_dir) root f.
Proof.
  rewrite generate_report_rows. cbv zeta. cbn [fst].
  assert (∀ rows, row ∈ (if sort_rows then sort_by_relative_path rows else rows)
                  ↔ row ∈ rows) as ->.
  { intros rows. destruct sort_rows; [|done]. by rewrite sort_by_relative_path_perm. }
  rewrite list_elem_of_fmap. split.
  - intros ([root f] & -> & [Hp Hin]%list_elem_of_filter). by exists root, f.
  - intros (root & f & Hin & Hp & ->). exists (root, f). split; [done|].
    by apply list_elem_of_filter.
Qed.

(** C9: in every report row a status other than [NOT_ELABORATED] comes
    with [has_output] set and at least one output; a row whose matches
    are all of kind [other] has [has_output] set and status
    [NOT_ELABORATED], so the converse fails. *)
Theorem status_implies_output (data_dir output_dir : string) (exts : list string)
    (include_all sort_rows : bool) :
  let outputs := scan_outputs walk relpath getmtime isoformat output_dir in
  (∀ row,
     row ∈ (generate_report walk relpath abspath getmtime isoformat
              data_dir output_dir exts include_all sort_rows).1 →
     (has_output row = true ↔ (1 ≤ num_outputs row)%nat)
     ∧ (status row ≠ "NOT_ELABORATED"%string →
        has_output row = true ∧ (1 ≤ num_outputs row)%nat))
  ∧ (∀ root f,
       let matches :=
         find_matches_for_source (relpath (PosixPath.join root f) data_dir)
           (PosixPath.splitext (PosixPath.basename f)).1 outputs in
       let row := report_row relpath abspath data_dir outputs root f in
       matches ≠ [] → Forall (λ m, kind m = "other"%string) matches →
       has_output row = true ∧ status row = "NOT_ELABORATED"%string).
Proof.
  cbv zeta. split.
  - intros row (root & f & _ & _ & ->)%generate_report_elem.
    destruct (report_row_fields data_dir
                (scan_outputs walk relpath getmtime isoformat output_dir) root f)
      as (_ & Hst & Hn & Hh & _).
    rewrite Hst, Hn, Hh. rewrite Nat.ltb_lt. split; [lia|].
    intros Hne.
    destruct (find_matches_for_source _ _ _) as [|m ms]; [|simpl; lia].
    change (kind <$> []) with (@nil string) in Hne.
    by rewrite determine_status_nil in Hne.
  - intros root f Hne Hother.
    destruct (report_row_fields data_dir
                (scan_outputs walk relpath getmtime isoformat output_dir) root f)
      as (_ & Hst & _ & Hh & _).
    rewrite Hst, Hh. split.
    + apply Nat.ltb_lt. destruct (find_matches_for_source _ _ _); [done|simpl; lia].
    + apply determine_status_other. by apply Forall_fmap.
Qed.

End AssemblerFacts.

Lemma status_implies_output_witness :
  let elaborated :=
    report_row Fixture.relpath Fixture.abspath "data" Fixture.outputs
      "data/ftp/CategoryX/Book1" "img001.png" in
  let unknown_kind :=
    report_row Fixture.relpath Fixture.abspath "data" Fixture.outputs
      "data/ftp/CategoryX" "cover.PNG" in
  (has_output elaborated = true ∧ (1 ≤ num_outputs elaborated)%nat)
  ∧ (has_output unknown_kind = true ∧ status unknown_kind = "NOT_ELABORATED"%string).
Proof.
  intros elaborated unknown_kind.
  pose proof (status_implies_output Fixture.walk Fixture.relpath Fixture.abspath
                Fixture.getmtime Fixture.isoformat
                "data" "out" COMMON_IMAGE_EXTS false true) as H.
  cbv zeta in H. destruct H as [Hrows Hother].
  split.
  - apply (Hrows elaborated).
    + apply list_elem_of_In. vm_compute. tauto.
    + vm_compute. discriminate.
  - apply (Hother "data/ftp/CategoryX"%string "cover.PNG"%string).
    + vm_compute. discriminate.
    + vm_compute. repeat constructor.
Defined.

(** ** The row count, for [str.lower] in full *)

Lemma filter_loop {R : Type} (skipped : string → bool) (row : string → string → R)
    (entries : list (string * list string * list string))
    (rows : list R) (total : nat) :
  fold_left
    (λ st '(root, _, files),
       fold_left
         (λ '(rows, total_sources) f,
            if skipped f then (rows, total_sources)
            else (rows ++ [row root f], S total_sources))
         files st)
    entries (rows, total)
  = let new := (λ rf, row rf.1 rf.2)
                 <$> filter (λ rf, skipped rf.2 = false) (listed entries) in
    (rows ++ new, (total + length new)%nat).
Proof.
  cbv zeta. revert rows total. unfold listed.
  induction entries as [|[[root dirs] files] entries IH]; intros rows total.
  - simpl. by rewrite app_nil_r, Nat.add_0_r.
  - cbn [fold_left]. rewrite bind_cons, filter_app, fmap_app. cbn [fst snd].
    assert (∀ rows total,
      fold_left
        (λ '(rows, total_sources) f,
           if skipped f then (rows, total_sources)
           else (rows ++ [row root f], S total_sources))
        files (rows, total)
      = (rows ++ ((λ rf, row rf.1 rf.2)
                    <$> filter (λ rf, skipped rf.2 = false) ((λ f, (root, f)) <$> files)),
         (total + length ((λ rf : string * string, row rf.1 rf.2)
                            <$> filter (λ rf, skipped rf.2 = false)
                                  ((λ f, (root, f)) <$> files)))%nat)) as Hinner.
    { clear. induction files as [|f files IHf]; intros rows total.
      - simpl. by rewrite app_nil_r, Nat.add_0_r.
      - cbn [fold_left]. rewrite fmap_cons.
        destruct (skipped f) eqn:Hf.
        + rewrite filter_cons_False by (cbn [snd]; congruence). by rewrite IHf.
        + rewrite filter_cons_True by done. rewrite IHf.
          rewrite fmap_cons, <- app_assoc. simpl. f_equal. lia. }
    rewrite Hinner, IH. rewrite <- app_assoc, length_app. f_equal. lia.
Qed.

Lemma generate_report_with_ascii {timestamp : Type}
    (walk : string → list (string * list string * list string))
    (relpath : string → string → string) (abspath : string → string)
    (getmtime : string → option timestamp) (isoformat : timestamp → option string)
    (data_dir output_dir : string) (exts : list string)
    (include_all sort_rows : bool) :
  generate_report_with Py.lower walk relpath abspath getmtime isoformat
    data_dir output_dir exts include_all sort_rows
  = generate_report walk relpath abspath getmtime isoformat
      data_dir output_dir exts include_all sort_rows.
Proof. reflexivity. Qed.

(** C5: the report has exactly one row per listed source file that
    passes the extension filter, none dropped and none repeated, and
    [total_sources] is their number; a file passes when include-all is
    set or its lowercased extension, by [str.lower], is in the filter
    list; the list built from the command line holds the lowercased
    entries, each with a dot in front. *)
Theorem row_count_invariant {timestamp : Type} (str_lower : string → string)
    (walk : string → list (string * list string * list string))
    (relpath : string → string → string) (abspath : string → string)
    (getmtime : string → option timestamp) (isoformat : timestamp → option string)
    (data_dir output_dir : string) (exts : list string)
    (include_all sort_rows : bool) :
  let report := generate_report_with str_lower walk relpath abspath getmtime isoformat
                  data_dir output_dir exts include_all sort_rows in
  let qualifying :=
    filter (λ rf, filtered_out_with str_lower exts include_all rf.2 = false)
      (listed (walk data_dir)) in
  let row_of (rf : string * string) :=
    report_row relpath abspath data_dir
      (scan_outputs walk relpath getmtime isoformat output_dir) rf.1 rf.2 in
  length report.1 = length qualifying
  ∧ report.2 = length qualifying
  ∧ report.1 ≡ₚ row_of <$> qualifying
  ∧ (sort_rows = false → report.1 = row_of <$> qualifying)
  ∧ (include_all = true → length report.1 = length (listed (walk data_dir)))
  ∧ (∀ f, filtered_out_with str_lower exts include_all f = false
          ↔ include_all = true ∨ str_lower (PosixPath.splitext f).2 ∈ exts)
  ∧ (∀ arg e,
       e ∈ parse_exts_with str_lower arg
       ↔ ∃ e0, e0 ∈ Py.split "," arg ∧ e0 ≠ EmptyString
               ∧ e = if Py.startswith "." e0 then str_lower e0
                     else String "." (str_lower e0))
  ∧ ((∀ e0, Py.startswith "." e0 = true → Py.startswith "." (str_lower e0) = true) →
     ∀ arg, Forall (λ e, Py.startswith "." e = true) (parse_exts_with str_lower arg)).
Proof.
  cbv zeta. unfold generate_report_with.
  rewrite filter_loop. cbv zeta. rewrite app_nil_l. cbn [fst snd Nat.add].
  assert (∀ f, filtered_out_with str_lower exts include_all f = false
               ↔ include_all = true ∨ str_lower (PosixPath.splitext f).2 ∈ exts)
    as Hpass.
  { intros f. unfold filtered_out_with.
    destruct (PosixPath.splitext f) as [name e]. cbn [snd].
    rewrite andb_false_iff, negb_false_iff, bool_decide_eq_false.
    destruct (decide (str_lower e ∈ exts)); tauto. }
  assert (∀ arg e,
            e ∈ parse_exts_with str_lower arg
            ↔ ∃ e0, e0 ∈ Py.split "," arg ∧ e0 ≠ EmptyString
                    ∧ e = if Py.startswith "." e0 then str_lower e0
                          else String "." (str_lower e0)) as Hexts.
  { intros arg e. unfold parse_exts_with.
    rewrite list_elem_of_In, List.in_map_iff. split.
    - intros (e0 & <- & [Hin Ht]%List.filter_In).
      exists e0. rewrite list_elem_of_In. split_and!; [done| |done].
      by destruct e0.
    - intros (e0 & Hin & Hne & ->). exists e0. split; [done|].
      apply List.filter_In. split; [by apply list_elem_of_In|by destruct e0]. }
  set (rows := _ <$> filter _ _).
  assert ((if sort_rows then sort_by_relative_path rows else rows) ≡ₚ rows) as Hperm.
  { destruct sort_rows; [apply sort_by_relative_path_perm|done]. }
  split_and!.
  - rewrite Hperm. unfold rows. by rewrite length_fmap.
  - unfold rows. by rewrite length_fmap.
  - exact Hperm.
  - by intros ->.
  - intros ->. rewrite Hperm. unfold rows. rewrite length_fmap.
    f_equal. apply filter_all. intros rf. apply Hpass. by left.
  - exact Hpass.
  - exact Hexts.
  - intros Hdot arg. apply Forall_forall. intros e (e0 & _ & _ & ->)%Hexts.
    destruct (Py.startswith "." e0) eqn:He0; [by apply Hdot|reflexivity].
Qed.

Lemma row_count_invariant_witness :
  length (generate_report_with Py.lower Fixture.walk Fixture.relpath Fixture.abspath
            Fixture.getmtime Fixture.isoformat
            "data" "out" COMMON_IMAGE_EXTS true false).1
  = length (listed (Fixture.walk "data"))
  ∧ (generate_report_with Py.lower Fixture.walk Fixture.relpath Fixture.abspath
       Fixture.getmtime Fixture.isoformat
       "data" "out" COMMON_IMAGE_EXTS false false).1
    = (λ rf, report_row Fixture.relpath Fixture.abspath "data" Fixture.outputs rf.1 rf.2)
        <$> filter (λ rf, filtered_out_with Py.lower COMMON_IMAGE_EXTS false rf.2 = false)
              (listed (Fixture.walk "data"))
  ∧ Forall (λ e, Py.startswith "." e = true) (parse_exts_with Py.lower ".PNG,jpg").
Proof.
  split_and!.
  - pose proof (row_count_invariant Py.lower Fixture.walk Fixture.relpath
                  Fixture.abspath Fixture.getmtime Fixture.isoformat
                  "data" "out" COMMON_IMAGE_EXTS true false) as H.
    cbv zeta in H. destruct H as (_ & _ & _ & _ & Hall & _).
    exact (Hall eq_refl).
  - pose proof (row_count_invariant Py.lower Fixture.walk Fixture.relpath
                  Fixture.abspath Fixture.getmtime Fixture.isoformat
                  "data" "out" COMMON_IMAGE_EXTS false false) as H.
    cbv zeta in H. destruct H as (_ & _ & _ & Hunsorted & _).
    exact (Hunsorted eq_refl).
  - pose proof (row_count_invariant Py.lower Fixture.walk Fixture.relpath
                  Fixture.abspath Fixture.getmtime Fixture.isoformat
                  "data" "out" COMMON_IMAGE_EXTS false false) as H.
    cbv zeta in H. destruct H as (_ & _ & _ & _ & _ & _ & _ & Hdot).
    apply Hdot. intros [|a e0]; [done|]. cbn. intros Ha.
    apply Ascii.eqb_eq in Ha as ->. reflexivity.
Defined.

(** With a [str.lower] that lowers a capital E with acute accent, the file
    [x.É] passes the filter [.é]. *)
Example filter_beyond_ascii :
  filtered_out_with (λ s, if String.eqb s ".É" then ".é"%string else Py.lower s)
    [".é"%string] false "x.É" = false.
Proof. vm_compute. reflexivity. Qed.

(** ** Category and container *)

Lemma keeps_false (p : string) :
  p = EmptyString ∨ is_wrapper p → keeps skip p = false.
Proof.
  unfold keeps. intros [->|Hw]; [reflexivity|].
  rewrite skip_eq. rewrite bool_decide_eq_false_2; [apply andb_false_r|].
  intros Hn. by apply Hn.
Qed.

Lemma keeps_true (p : string) :
  p ≠ EmptyString → ¬ is_wrapper p → keeps skip p = true.
Proof.
  unfold keeps. intros Hp Hw. rewrite skip_eq.
  rewrite bool_decide_eq_true_2 by done. by destruct p.
Qed.

Lemma category_loop_break (i : nat) (pre post : list string) (c : string) :
  Forall (λ p, p = EmptyString ∨ is_wrapper p) pre →
  c ≠ EmptyString → ¬ is_wrapper c →
  category_loop i (pre ++ c :: post) = Some (i + length pre)%nat.
Proof.
  intros Hpre Hc Hw. revert i.
  induction Hpre as [|p pre Hp _ IH]; intros i.
  - cbn [app category_loop length]. rewrite keeps_true by done. f_equal. lia.
  - cbn [app category_loop length]. rewrite keeps_false by done. rewrite IH. f_equal. lia.
Qed.

Lemma category_loop_none (i : nat) (parts : list string) :
  Forall (λ p, p = EmptyString ∨ is_wrapper p) parts →
  category_loop i parts = None.
Proof.
  intros Hparts. revert i. induction Hparts as [|p parts Hp _ IH]; intros i; [done|].
  cbn [category_loop]. by rewrite keeps_false.
Qed.

Lemma category_container_break (rel : string) (pre post : list string) (c : string) :
  Py.split PosixPath.sep rel = pre ++ c :: post →
  Forall (λ p, p = EmptyString ∨ is_wrapper p) pre →
  c ≠ EmptyString → ¬ is_wrapper c →
  category_container rel = (c, List.hd EmptyString post).
Proof.
  intros Hsplit Hpre Hc Hw. unfold category_container. rewrite Hsplit.
  rewrite category_loop_break by done. cbn [Nat.add].
  rewrite length_app. cbn [length].
  replace (length pre <? length pre + S (length post))%nat with true
    by (symmetry; apply Nat.ltb_lt; lia).
  f_equal.
  - rewrite List.app_nth2 by lia. by rewrite Nat.sub_diag.
  - destruct post as [|d post].
    + replace (length pre + 1 <? length pre + S (length []))%nat with false; [done|].
      symmetry. apply Nat.ltb_ge. simpl. lia.
    + replace (length pre + 1 <? length pre + S (length (d :: post)))%nat with true
        by (symmetry; apply Nat.ltb_lt; simpl; lia).
      rewrite List.app_nth2 by lia.
      replace (length pre + 1 - length pre)%nat with 1%nat by lia. done.
Qed.

(** C4, as the code has it: when the relative path of a report row, file
    name included, has a non-empty segment whose lowercase form is not a
    wrapper, the category of the row is the first such segment and the
    container is the segment that follows it in that path, empty when the
    category is the last segment. *)
Theorem category_from_relative_path {timestamp : Type}
    (walk : string → list (string * list string * list string))
    (relpath : string → string → string) (abspath : string → string)
    (getmtime : string → option timestamp) (isoformat : timestamp → option string)
    (data_dir output_dir : string) (exts : list string)
    (include_all sort_rows : bool) (row : ReportRow)
    (pre post : list string) (c : string) :
  row ∈ (generate_report walk relpath abspath getmtime isoformat
           data_dir output_dir exts include_all sort_rows).1 →
  Py.split PosixPath.sep (relative_path row) = pre ++ c :: post →
  Forall (λ p, p = EmptyString ∨ is_wrapper p) pre →
  c ≠ EmptyString → ¬ is_wrapper c →
  category row = c ∧ book_container row = List.hd EmptyString post.
Proof.
  intros (root & f & _ & _ & ->)%generate_report_elem Hsplit Hpre Hc Hw.
  destruct (report_row_fields relpath abspath data_dir
              (scan_outputs walk relpath getmtime isoformat output_dir) root f)
    as (Hrel & _ & _ & _ & Hcat & _).
  rewrite Hrel in Hsplit.
  rewrite (category_container_break _ _ _ _ Hsplit Hpre Hc Hw) in Hcat.
  by injection Hcat.
Qed.

Lemma category_from_relative_path_witness :
  let row :=
    report_row Fixture.relpath Fixture.abspath "data" Fixture.outputs
      "data/ftp/CategoryX" "cover.PNG" in
  category row = "CategoryX"%string ∧ book_container row = "cover.PNG"%string.
Proof.
  intros row.
  apply (category_from_relative_path Fixture.walk Fixture.relpath Fixture.abspath
           Fixture.getmtime Fixture.isoformat
           "data" "out" COMMON_IMAGE_EXTS false true row
           ["ftp"%string] ["cover.PNG"%string] "CategoryX"%string).
  - apply list_elem_of_In. vm_compute. tauto.
  - vm_compute. reflexivity.
  - apply Forall_cons. split; [right; by vm_compute|constructor].
  - discriminate.
  - intros Hw. apply (bool_decide_pack _) in Hw. vm_compute in Hw. exact Hw.
Defined.

(** C4 as the specification states it fails: the file [img001.png] at the
    top of the source tree has an empty relative directory, yet its
    category is its own file name. *)
Lemma category_of_directory_fails :
  ¬ (∀ row, row ∈ (Fixture.report COMMON_IMAGE_EXTS false true).1 →
            category row = category_spec (relative_path row)
            ∧ book_container row = container_spec (relative_path row)).
Proof.
  intros H.
  specialize (H (report_row Fixture.relpath Fixture.abspath "data" Fixture.outputs
                   "data" "img001.png")).
  destruct H as [Hcat _].
  - apply list_elem_of_In. vm_compute. tauto.
  - vm_compute in Hcat. discriminate.
Qed.

(** ** Letter case in the matcher *)

Lemma keeps_lower (wrappers : gset string) (p q : string) :
  Py.lower p = Py.lower q → keeps wrappers p = keeps wrappers q.
Proof.
  intros Hpq. unfold keeps.
  by rewrite <- (lower_truthy p), <- (lower_truthy q), Hpq.
Qed.

Lemma strip_leading_wrapper (w rest : string) :
  is_wrapper w →
  strip_leading (w +:+ String PosixPath.sep rest) = strip_leading rest.
Proof.
  intros Hw. destruct (is_wrapper_segment w Hw) as [Ht Hf].
  unfold strip_leading. rewrite split_app_sep by done.
  cbn [List.filter]. rewrite Ht. cbn [strip_leading_loop].
  rewrite keeps_spec by done.
  rewrite bool_decide_eq_false_2; [done|tauto].
Qed.

(** C10: wrapper detection looks at the lowercase form of a segment, so
    [FTP] and [Output] are stripped like [ftp] and [output]; the
    directories that remain are compared as they are, so a source under
    [A/B] never matches an output under [a/b]. *)
Theorem directory_case_sensitive :
  (∀ p q, Py.lower p = Py.lower q → keeps SKIP_LEADING p = keeps SKIP_LEADING q)
  ∧ (∀ w rest, Py.lower w ∈ SKIP_LEADING →
               strip_leading (w +:+ String PosixPath.sep rest) = strip_leading rest)
  ∧ strip_leading "FTP/A/B" = "A/B"%string
  ∧ strip_leading "ftp/A/B" = "A/B"%string
  ∧ strip_leading "Output/A/B" = "A/B"%string
  ∧ strip_leading "output/A/B" = "A/B"%string
  ∧ strip_leading "ftp/a/b" = "a/b"%string
  ∧ (∀ src_rel src_basename outputs out,
       strip_leading (PosixPath.dirname src_rel) = "A/B"%string →
       strip_leading (PosixPath.dirname (rel out)) = "a/b"%string →
       out ∉ find_matches_for_source src_rel src_basename outputs)
  ∧ (∀ src_rel src_basename outputs out,
       strip_leading (PosixPath.dirname (rel out))
       ≠ strip_leading (PosixPath.dirname src_rel) →
       out ∉ find_matches_for_source src_rel src_basename outputs).
Proof.
  split_and!; try (vm_compute; reflexivity).
  - apply keeps_lower.
  - intros w rest Hw. by apply strip_leading_wrapper.
  - intros src_rel src_basename outputs out Hsrc Hout.
    rewrite find_matches_filter, list_elem_of_filter. unfold same_place.
    rewrite Hsrc, Hout. intros [[? _] _]. discriminate.
  - intros src_rel src_basename outputs out Hne.
    rewrite find_matches_filter, list_elem_of_filter. unfold same_place.
    tauto.
Qed.

Lemma directory_case_sensitive_witness :
  let out := {| full := "out/Output/a/b/file.csv"; rel := "Output/a/b/file.csv";
                basename := "file"; ext := ".csv"; kind := "csv"; mtime := EmptyString |} in
  strip_leading "in/FTP/A/B" = strip_leading "FTP/A/B"
  ∧ out ∉ find_matches_for_source "FTP/A/B/file.png" "file" [out].
Proof.
  intros out.
  pose proof directory_case_sensitive as (_ & Hstrip & _ & _ & _ & _ & _ & Hcase & _).
  split.
  - apply (Hstrip "in"%string "FTP/A/B"%string). by vm_compute.
  - apply (Hcase "FTP/A/B/file.png"%string "file"%string [out] out).
    + vm_compute. reflexivity.
    + vm_compute. reflexivity.
Defined.

(** ** Dictionaries and the counting loops *)

Section DictFacts.

Context {V : Type}.
Implicit Types (d : list (string * V)) (k : string) (v : V).

Lemma dict_get_set d k k' v default :
  Dict.get (Dict.set d k v) k' default
  = if decide (k = k') then v else Dict.get d k' default.
Proof.
  induction d as [|[k0 v0] d IH]; cbn [Dict.set Dict.get].
  - destruct (String.eqb_spec k k'); by case_decide.
  - destruct (String.eqb_spec k0 k) as [->|Hne]; cbn [Dict.get].
    + destruct (String.eqb_spec k k'); by case_decide.
    + rewrite IH. destruct (String.eqb_spec k0 k') as [->|Hne']; [|done].
      by rewrite decide_False by congruence.
Qed.

Lemma dict_keys_set d k v :
  Dict.keys (Dict.set d k v)
  = if decide (k ∈ Dict.keys d) then Dict.keys d else Dict.keys d ++ [k].
Proof.
  unfold Dict.keys. induction d as [|[k0 v0] d IH]; cbn [Dict.set fmap list_fmap fst].
  - rewrite decide_False; [done|]. apply not_elem_of_nil.
  - destruct (String.eqb_spec k0 k) as [->|Hne]; cbn [fmap list_fmap fst].
    + rewrite decide_True; [done|]. apply elem_of_cons. by left.
    + rewrite IH. case_decide as Hin.
      * rewrite decide_True; [done|]. apply elem_of_cons. by right.
      * rewrite decide_False; [done|].
        rewrite elem_of_cons. intros [->|?]; done.
Qed.

End DictFacts.

Lemma dict_sum_bump (d : list (string * nat)) (k : string) :
  sum_list (Dict.values (Dict.set d k (Dict.get d k 0 + 1)%nat))
  = S (sum_list (Dict.values d)).
Proof.
  unfold Dict.values. induction d as [|[k0 v0] d IH]; cbn [Dict.set Dict.get]; [done|].
  destruct (String.eqb_spec k0 k) as [->|Hne]; cbn [fmap list_fmap snd sum_list sum_list_with].
  - unfold id. lia.
  - rewrite IH. unfold id. lia.
Qed.

Lemma first_occurrences_elem (l seen : list string) (k : string) :
  k ∈ first_occurrences l seen ↔ k ∈ l ∧ k ∉ seen.
Proof.
  revert seen. induction l as [|x l IH]; intros seen; cbn [first_occurrences].
  - rewrite elem_of_nil. tauto.
  - case_decide as Hx.
    + rewrite IH, elem_of_cons. split; [tauto|].
      intros [[->|?] ?]; tauto.
    + rewrite !elem_of_cons, IH, elem_of_app, list_elem_of_singleton.
      destruct (decide (k = x)) as [->|Hkx]; tauto.
Qed.

Lemma first_occurrences_NoDup (l seen : list string) :
  NoDup (first_occurrences l seen).
Proof.
  revert seen. induction l as [|x l IH]; intros seen; cbn [first_occurrences].
  - constructor.
  - case_decide as Hx; [apply IH|].
    apply NoDup_cons. split; [|apply IH].
    rewrite first_occurrences_elem, elem_of_app, list_elem_of_singleton. tauto.
Qed.

Lemma first_occurrences_seen (l seen : list string) :
  Forall (λ k, k ∈ seen) l → first_occurrences l seen = [].
Proof.
  induction 1 as [|x l Hx _ IH]; cbn [first_occurrences]; [done|].
  by rewrite decide_True.
Qed.

Section CountingLoop.

Context {A : Type}.
Variable key : A → string.

Lemma counting_loop_get (l : list A) (d : list (string * nat)) (k : string) :
  Dict.get
    (fold_left (λ d x, Dict.set d (key x) (Dict.get d (key x) 0 + 1)%nat) l d) k 0%nat
  = (Dict.get d k 0 + tally key k l)%nat.
Proof.
  revert d. unfold tally. induction l as [|x l IH]; intros d; cbn [fold_left].
  - simpl. lia.
  - rewrite IH, dict_get_set. case_decide as Hk.
    + rewrite filter_cons_True by done. rewrite Hk. simpl. lia.
    + by rewrite filter_cons_False by done.
Qed.

Lemma counting_loop_keys (l : list A) (d : list (string * nat)) :
  Dict.keys
    (fold_left (λ d x, Dict.set d (key x) (Dict.get d (key x) 0 + 1)%nat) l d)
  = Dict.keys d ++ first_occurrences (key <$> l) (Dict.keys d).
Proof.
  revert d. induction l as [|x l IH]; intros d; cbn [fold_left].
  - simpl. by rewrite app_nil_r.
  - rewrite IH, dict_keys_set. cbn [fmap list_fmap first_occurrences].
    case_decide as Hk; [done|]. by rewrite <- app_assoc.
Qed.

Lemma counting_loop_sum (l : list A) (d : list (string * nat)) :
  sum_list
    (Dict.values
       (fold_left (λ d x, Dict.set d (key x) (Dict.get d (key x) 0 + 1)%nat) l d))
  = (sum_list (Dict.values d) + length l)%nat.
Proof.
  revert d. induction l as [|x l IH]; intros d; cbn [fold_left].
  - simpl. lia.
  - rewrite IH, dict_sum_bump. simpl. lia.
Qed.

End CountingLoop.

Lemma determine_status_range (match_kinds : list string) :
  determine_status match_kinds
    ∈ ["ELABORATED"; "ERROR"; "TIMEOUT"; "NOT_ELABORATED"]%string.
Proof.
  rewrite determine_status_cases.
  repeat case_decide; rewrite !elem_of_cons; tauto.
Qed.

(** X1: after the summary loop the dictionary [counts] still has exactly
    the four statuses as keys, in their initial order; each value is the
    number of report rows with that status, and the values add up to the
    number of rows. *)
Theorem counts_summary {timestamp : Type}
    (walk : string → list (string * list string * list string))
    (relpath : string → string → string) (abspath : string → string)
    (getmtime : string → option timestamp) (isoformat : timestamp → option string)
    (data_dir output_dir : string) (exts : list string)
    (include_all sort_rows : bool) :
  let rows := (generate_report walk relpath abspath getmtime isoformat
                 data_dir output_dir exts include_all sort_rows).1 in
  Dict.keys (counts rows) = ["ELABORATED"; "ERROR"; "TIMEOUT"; "NOT_ELABORATED"]%string
  ∧ (∀ s, Dict.get (counts rows) s 0%nat = tally status s rows)
  ∧ sum_list (Dict.values (counts rows)) = length rows.
Proof.
  intros rows. unfold counts. split_and!.
  - rewrite (counting_loop_keys status). rewrite first_occurrences_seen; [done|].
    apply Forall_fmap, Forall_forall. intros row Hrow.
    apply generate_report_elem in Hrow as (root & f & _ & _ & ->).
    destruct (report_row_fields relpath abspath data_dir
                (scan_outputs walk relpath getmtime isoformat output_dir) root f)
      as (_ & Hst & _).
    cbn [compose]. rewrite Hst. apply determine_status_range.
  - intros s. rewrite (counting_loop_get status).
    cbn [Dict.get]. by repeat destruct (String.eqb _ s).
  - by rewrite (counting_loop_sum status).
Qed.

(** X2: the dictionary [cat_counts] has one key per distinct category of
    the rows, in order of first appearance, with [UNKNOWN] standing for
    the empty category; no key is empty or repeated, each value is the
    number of rows counted under the key, and the values add up to the
    number of rows. *)
Theorem cat_counts_summary (rows : list ReportRow) :
  Dict.keys (cat_counts rows) = first_occurrences (cat_key <$> rows) []
  ∧ NoDup (Dict.keys (cat_counts rows))
  ∧ (EmptyString ∉ Dict.keys (cat_counts rows))
  ∧ (∀ k, k ∈ Dict.keys (cat_counts rows) ↔ ∃ r, r ∈ rows ∧ cat_key r = k)
  ∧ (∀ k, Dict.get (cat_counts rows) k 0%nat = tally cat_key k rows)
  ∧ sum_list (Dict.values (cat_counts rows)) = length rows.
Proof.
  assert (Dict.keys (cat_counts rows) = first_occurrences (cat_key <$> rows) []) as Hkeys.
  { unfold cat_counts. by rewrite (counting_loop_keys cat_key). }
  assert (∀ k, k ∈ Dict.keys (cat_counts rows) ↔ ∃ r, r ∈ rows ∧ cat_key r = k) as Helem.
  { intros k. rewrite Hkeys, first_occurrences_elem, list_elem_of_fmap.
    split.
    - intros [(r & -> & Hr) _]. by exists r.
    - intros (r & Hr & <-). split; [by exists r|apply not_elem_of_nil]. }
  split_and!; try done.
  - rewrite Hkeys. apply first_occurrences_NoDup.
  - intros (r & _ & Hr)%Helem. unfold cat_key in Hr.
    destruct (category r); discriminate.
  - intros k. unfold cat_counts. by rewrite (counting_loop_get cat_key).
  - unfold cat_counts. by rewrite (counting_loop_sum cat_key).
Qed.

(** ** The order of the rows *)

Lemma ascii_compare_trans (a b c : ascii) (o : comparison) :
  Ascii.compare a b = o → Ascii.compare b c = o → Ascii.compare a c = o.
Proof.
  unfold Ascii.compare. intros <-.
  destruct (N.compare_spec (N_of_ascii a) (N_of_ascii b)) as [E|L|G]; intros Hbc.
  - by rewrite E.
  - rewrite N.compare_lt_iff in *. lia.
  - rewrite N.compare_gt_iff in *. lia.
Qed.

Lemma string_leb_trans (s1 s2 s3 : string) :
  String.leb s1 s2 = true → String.leb s2 s3 = true → String.leb s1 s3 = true.
Proof.
  unfold String.leb. revert s2 s3.
  induction s1 as [|a s1 IH]; intros [|b s2] [|c s3]; cbn [String.compare]; try done.
  destruct (Ascii.compare a b) eqn:Hab, (Ascii.compare b c) eqn:Hbc; try done.
  - rewrite (ascii_compare_trans a b c Eq) by done. apply IH.
  - apply Ascii.compare_eq_iff in Hab as ->. by rewrite Hbc.
  - apply Ascii.compare_eq_iff in Hbc as ->. by rewrite Hab.
  - by rewrite (ascii_compare_trans a b c Lt).
Qed.

Lemma path_le_total (r r' : ReportRow) : path_le r r' ∨ path_le r' r.
Proof. apply String.leb_total. Qed.

Lemma path_le_trans (r1 r2 r3 : ReportRow) :
  path_le r1 r2 → path_le r2 r3 → path_le r1 r3.
Proof. apply string_leb_trans. Qed.

Lemma insert_row_sorted (r : ReportRow) (rows : list ReportRow) :
  StronglySorted path_le rows → StronglySorted path_le (insert_row r rows).
Proof.
  induction 1 as [|r' rows Hsorted IH Hall]; cbn [insert_row].
  - repeat constructor.
  - destruct (String.leb (relative_path r) (relative_path r')) eqn:Hle.
    + constructor; [by constructor|].
      constructor; [done|].
      eapply Forall_impl; [exact Hall|]. intros x Hx. by eapply path_le_trans.
    + constructor; [done|].
      rewrite (insert_row_perm r rows). constructor; [|done].
      destruct (path_le_total r r') as [H|H]; [|done].
      unfold path_le in H. congruence.
Qed.

Lemma sort_by_relative_path_sorted (rows : list ReportRow) :
  StronglySorted path_le (sort_by_relative_path rows).
Proof.
  induction rows as [|r rows IH]; cbn [sort_by_relative_path fold_right].
  - constructor.
  - by apply insert_row_sorted.
Qed.

Lemma sorted_perm_unique (l l' : list ReportRow) :
  StronglySorted path_le l → StronglySorted path_le l' → l ≡ₚ l' →
  NoDup (relative_path <$> l) → l = l'.
Proof.
  intros Hl. revert l'. induction Hl as [|x l Hl IH Hx]; intros l' Hl' Hperm Hnd.
  - by apply Permutation_nil in Hperm.
  - destruct Hl' as [|y l' Hl' Hy].
    { symmetry in Hperm. by apply Permutation_nil in Hperm. }
    assert (x = y) as ->.
    { assert (x ∈ y :: l') as Hxin by (rewrite <- Hperm; apply elem_of_cons; by left).
      assert (y ∈ x :: l) as Hyin by (rewrite Hperm; apply elem_of_cons; by left).
      apply elem_of_cons in Hxin as [->|Hxin]; [done|].
      apply elem_of_cons in Hyin as [->|Hyin]; [done|].
      rewrite Forall_forall in Hx, Hy.
      pose proof (String.leb_antisym _ _ (Hx y Hyin) (Hy x Hxin)) as Hkey.
      apply NoDup_cons in Hnd as [Hnotin _]. exfalso. apply Hnotin.
      cbn [fmap list_fmap] in *. rewrite Hkey. by apply list_elem_of_fmap_2. }
    f_equal. apply IH; [done| |].
    + by apply Permutation_cons_inv in Hperm.
    + cbn [fmap list_fmap] in Hnd. by apply NoDup_cons in Hnd as [_ ?].
Qed.

(** X3: with sorting on, the rows of the report are in non-decreasing
    code-point order of [relative_path]. *)
Theorem sorted_report {timestamp : Type}
    (walk : string → list (string * list string * list string))
    (relpath : string → string → string) (abspath : string → string)
    (getmtime : string → option timestamp) (isoformat : timestamp → option string)
    (data_dir output_dir : string) (exts : list string) (include_all : bool) :
  StronglySorted path_le
    (generate_report walk relpath abspath getmtime isoformat
       data_dir output_dir exts include_all true).1.
Proof.
  rewrite generate_report_rows. cbv zeta. cbn [fst].
  apply sort_by_relative_path_sorted.
Qed.

(** X4: with sorting on, the rows do not depend on the order in which the
    source tree is walked, as long as the relative paths of the listed
    files are pairwise distinct. *)
Theorem sorted_report_walk_order {timestamp : Type}
    (walk walk' : string → list (string * list string * list string))
    (relpath : string → string → string) (abspath : string → string)
    (getmtime : string → option timestamp) (isoformat : timestamp → option string)
    (data_dir output_dir : string) (exts : list string) (include_all : bool) :
  walk output_dir = walk' output_dir →
  listed (walk data_dir) ≡ₚ listed (walk' data_dir) →
  NoDup ((λ rf, relpath (PosixPath.join rf.1 rf.2) data_dir) <$> listed (walk data_dir)) →
  (generate_report walk relpath abspath getmtime isoformat
     data_dir output_dir exts include_all true).1
  = (generate_report walk' relpath abspath getmtime isoformat
       data_dir output_dir exts include_all true).1.
Proof.
  intros Hout Hperm Hnd. rewrite !generate_report_rows. cbv zeta. cbn [fst].
  assert (scan_outputs walk' relpath getmtime isoformat output_dir
          = scan_outputs walk relpath getmtime isoformat output_dir) as ->.
  { unfold scan_outputs. by rewrite Hout. }
  set (row_of := λ rf : string * string, report_row relpath abspath data_dir _ rf.1 rf.2).
  apply sorted_perm_unique; try apply sort_by_relative_path_sorted.
  - rewrite !sort_by_relative_path_perm. by rewrite Hperm.
  - rewrite sort_by_relative_path_perm, <- list_fmap_compose.
    assert (∀ rf, (relative_path ∘ row_of) rf
                  = relpath (PosixPath.join rf.1 rf.2) data_dir) as Hkey.
    { intros [root f]. unfold row_of. cbn [compose fst snd].
      by destruct (report_row_fields relpath abspath data_dir
                     (scan_outputs walk relpath getmtime isoformat output_dir) root f)
        as (-> & _). }
    rewrite (list_fmap_ext _ _ _ (λ _ rf _, Hkey rf)).
    eapply sublist_NoDup; [exact Hnd|].
    apply fmap_sublist, sublist_filter.
Qed.

Lemma sorted_report_walk_order_witness :
  (generate_report Fixture.walk Fixture.relpath Fixture.abspath
     Fixture.getmtime Fixture.isoformat "data" "out" [] true true).1
  = (generate_report FixtureReordered.walk Fixture.relpath Fixture.abspath
       Fixture.getmtime Fixture.isoformat "data" "out" [] true true).1.
Proof.
  apply sorted_report_walk_order.
  - reflexivity.
  - vm_compute. apply perm_swap.
  - apply (bool_decide_unpack _). vm_compute. exact I.
Defined.

(** ** More on the status resolver *)

(** X5: the status of two lists of kinds put together is the one of
    higher precedence among their statuses; so further outputs never
    lower a status, and kinds outside [csv], [timeout], [error] never
    change it. *)
Theorem determine_status_app (kinds1 kinds2 : list string) :
  determine_status (kinds1 ++ kinds2)
  = (if (rank (determine_status kinds1) <? rank (determine_status kinds2))%nat
     then determine_status kinds2 else determine_status kinds1)
  ∧ (rank (determine_status kinds1) ≤ rank (determine_status (kinds1 ++ kinds2)))%nat
  ∧ (Forall (λ k, k ∉ ["csv"; "timeout"; "error"]%string) kinds2 →
     determine_status (kinds1 ++ kinds2) = determine_status kinds1).
Proof.
  assert (determine_status (kinds1 ++ kinds2)
          = (if (rank (determine_status kinds1) <? rank (determine_status kinds2))%nat
             then determine_status kinds2 else determine_status kinds1)) as Happ.
  { rewrite !determine_status_cases.
    repeat case_decide; try reflexivity; exfalso;
      rewrite ?elem_of_app in *; tauto. }
  split_and!.
  - exact Happ.
  - rewrite Happ. destruct (_ <? _)%nat eqn:Hlt; [|lia].
    apply Nat.ltb_lt in Hlt. lia.
  - intros Hother. rewrite Happ.
    assert (determine_status kinds2 = "NOT_ELABORATED"%string) as ->; [|done].
    rewrite determine_status_cases. rewrite Forall_forall in Hother.
    repeat case_decide; try done;
      match goal with
      | H : ?k ∈ kinds2 |- _ =>
          exfalso; apply (Hother k H); rewrite !elem_of_cons; tauto
      end.
Qed.

Lemma determine_status_app_witness :
  determine_status (["error"; "other"]%string ++ ["log"; "other"]%string)
  = determine_status ["error"; "other"]%string.
Proof.
  apply (proj2 (proj2 (determine_status_app
                         ["error"; "other"]%string ["log"; "other"]%string))).
  repeat (apply Forall_cons; split;
          [rewrite !elem_of_cons, elem_of_nil; intros [?|[?|[?|[]]]]; discriminate|]).
  constructor.
Defined.

(** ** Extensions *)





Lemma splitext_loop_result (p : string) (dotIndex : Z) (n : nat) (rest : string)
    (r : string * string) :
  PosixPath.splitext_loop p dotIndex n rest = Some r →
  r = (Py.take_str (Z.to_nat dotIndex) p, Py.drop_str (Z.to_nat dotIndex) p).
Proof.
  revert rest. induction n as [|n IH]; intros rest; cbn [PosixPath.splitext_loop]; [done|].
  destruct rest as [|a rest]; [by intros [= <-]|].
  destruct (negb (Ascii.eqb a PosixPath.extsep)); [by intros [= <-]|apply IH].
Qed.

Lemma splitext_cases (p : string) :
  PosixPath.splitext p = (p, EmptyString)
  ∨ ∃ i, Py.rfind_opt PosixPath.extsep p = Some i
         ∧ PosixPath.splitext p = (Py.take_str i p, Py.drop_str i p).
Proof.
  unfold PosixPath.splitext.
  destruct (_ >? _) eqn:Hgt; [|by left].
  destruct (PosixPath.splitext_loop _ _ _ _) as [r|] eqn:Hloop; [|by left].
  apply splitext_loop_result in Hloop as ->.
  unfold Py.rfind in *.
  destruct (Py.rfind_opt PosixPath.extsep p) as [i|] eqn:Hdot.
  - right. exists i. by rewrite Nat2Z.id.
  - exfalso. apply Z.gtb_gt in Hgt.
    destruct (Py.rfind_opt PosixPath.sep p); lia.
Qed.



Lemma splitext_no_dot (p : string) :
  occurs PosixPath.extsep p = false → PosixPath.splitext p = (p, EmptyString).
Proof.
  intros Hp. destruct (splitext_cases p) as [->|(i & Hi & _)]; [done|].
  by rewrite rfind_opt_free in Hi.
Qed.

Lemma parse_exts_not_empty (arg : string) : EmptyString ∉ parse_exts arg.
Proof.
  intros Hin. pose proof (parse_exts_shape arg) as Hshape.
  rewrite Forall_forall in Hshape. by destruct (Hshape _ Hin) as [? _].
Qed.

(** X6: a source file whose name has no dot has an empty extension, and
    an empty extension is in no filter built from [--exts]: such a file
    is reported only with [--include-all]. *)
Theorem no_extension_filtered (arg f : string) (include_all : bool) :
  (occurs PosixPath.extsep f = false → PosixPath.splitext f = (f, EmptyString))
  ∧ ((PosixPath.splitext f).2 = EmptyString →
     filtered_out (parse_exts arg) include_all f = negb include_all).
Proof.
  split; [apply splitext_no_dot|].
  intros Hext. unfold filtered_out.
  destruct (PosixPath.splitext f) as [name e]. cbn [snd] in Hext. subst e.
  rewrite bool_decide_eq_true_2; [apply andb_true_r|].
  apply parse_exts_not_empty.
Qed.

Lemma no_extension_filtered_witness :
  PosixPath.splitext "README" = ("README"%string, EmptyString)
  ∧ filtered_out (parse_exts "png,.JPG") false "README" = true.
Proof.
  pose proof (no_extension_filtered "png,.JPG" "README" false) as [Hsplit Hout].
  split.
  - apply Hsplit. reflexivity.
  - apply Hout. reflexivity.
Defined.

Lemma lower_ascii_comma (a : ascii) :
  Ascii.eqb (Py.lower_ascii a) ","%char = Ascii.eqb a ","%char.
Proof. destruct a as [[] [] [] [] [] [] [] []]; reflexivity. Qed.

Lemma lower_ascii_dot (a : ascii) :
  Ascii.eqb (Py.lower_ascii a) "."%char = Ascii.eqb a "."%char.
Proof. destruct a as [[] [] [] [] [] [] [] []]; reflexivity. Qed.

Lemma lower_occurs_comma (s : string) :
  occurs ","%char (Py.lower s) = occurs ","%char s.
Proof. induction s as [|a s IH]; simpl; [done|]. by rewrite lower_ascii_comma, IH. Qed.

Lemma split_lower (s : string) :
  Py.split "," (Py.lower s) = List.map Py.lower (Py.split "," s).
Proof.
  induction s as [|a s IH]; [done|].
  cbn [Py.lower Py.split]. rewrite lower_ascii_comma, IH.
  destruct (Ascii.eqb a ","); [done|].
  pose proof (split_not_nil "," s) as Hne.
  destruct (Py.split "," s); done.
Qed.

(** The normalisation of one entry of [--exts]. *)
Lemma parse_exts_entry (e : string) :
  Py.truthy e = true → occurs ","%char e = false →
  parse_exts e = [if Py.startswith "." e then Py.lower e else String "." (Py.lower e)].
Proof.
  intros Ht Hf. unfold parse_exts. rewrite split_free_id by done.
  cbn [List.filter]. by rewrite Ht.
Qed.

Lemma parse_exts_free (arg : string) :
  Forall (λ e, occurs ","%char e = false) (parse_exts arg).
Proof.
  unfold parse_exts. apply List.Forall_forall. intros e He.
  apply List.in_map_iff in He as (e0 & <- & [Hin _]%List.filter_In).
  pose proof (split_free "," arg) as Hfree. rewrite List.Forall_forall in Hfree.
  specialize (Hfree e0 Hin).
  destruct (Py.startswith "." e0); [|cbn [occurs]; rewrite orb_false_l];
    by rewrite lower_occurs_comma.
Qed.

Lemma lower_ascii_is_ascii (a : ascii) :
  (N_of_ascii (Py.lower_ascii a) <? 128)%N = (N_of_ascii a <? 128)%N.
Proof. destruct a as [[] [] [] [] [] [] [] []]; reflexivity. Qed.

Lemma lower_is_ascii (s : string) : is_ascii (Py.lower s) = is_ascii s.
Proof.
  induction s as [|a s IH]; [done|].
  cbn [Py.lower is_ascii]. by rewrite lower_ascii_is_ascii, IH.
Qed.

Lemma split_is_ascii (c : ascii) (s : string) :
  is_ascii s = true → Forall (λ w, is_ascii w = true) (Py.split c s).
Proof.
  induction s as [|a s IH]; cbn [is_ascii Py.split].
  - by repeat constructor.
  - intros [Ha Hs]%andb_true_iff. specialize (IH Hs).
    destruct (Ascii.eqb a c); [by constructor|].
    destruct (Py.split c s) as [|w ws]; [by repeat constructor; cbn; rewrite Ha|].
    apply Forall_cons in IH as [Hw Hws].
    constructor; [cbn [is_ascii]; by rewrite Ha, Hw|done].
Qed.

Lemma parse_exts_is_ascii (arg : string) :
  is_ascii arg = true → Forall (λ e, is_ascii e = true) (parse_exts arg).
Proof.
  intros Harg. unfold parse_exts. apply List.Forall_forall. intros e He.
  apply List.in_map_iff in He as (e0 & <- & [Hin _]%List.filter_In).
  pose proof (split_is_ascii "," arg Harg) as Hsplit.
  rewrite List.Forall_forall in Hsplit. specialize (Hsplit e0 Hin).
  destruct (Py.startswith "." e0); [|cbn [is_ascii]; rewrite andb_true_l];
    by rewrite lower_is_ascii.
Qed.

(** X7: for an [--exts] argument of ASCII characters, on which
    [Py.lower] is [str.lower], the extension list is a fixed point of the
    parsing: its entries are ASCII again, and joined by commas and parsed
    again the list comes back unchanged; the letter case of the argument
    does not matter, and the leading dot of an entry is optional. *)
Theorem parse_exts_normal_form (arg : string) :
  is_ascii arg = true →
  Forall (λ e, is_ascii e = true) (parse_exts arg)
  ∧ parse_exts (Py.join "," (parse_exts arg)) = parse_exts arg
  ∧ parse_exts (Py.lower arg) = parse_exts arg
  ∧ (∀ e, is_ascii e = true →
          Py.truthy e = true → occurs ","%char e = false →
          Py.startswith "." e = false →
          parse_exts (String "." e) = parse_exts e
          ∧ parse_exts e = [String "." (Py.lower e)]).
Proof.
  intros Harg. split_and!.
  - by apply parse_exts_is_ascii.
  - pose proof (parse_exts_shape arg) as Hshape.
    pose proof (parse_exts_free arg) as Hfree.
    destruct (parse_exts arg) as [|e l] eqn:Hl; [reflexivity|].
    unfold parse_exts at 1.
    rewrite (split_join ","%char) by done.
    rewrite filter_truthy_id.
    + clear Hl Hfree. induction Hshape as [|x xs [Hdot Hlow] _ IH]; [done|].
      cbn [List.map]. by rewrite Hdot, Hlow, IH.
    + eapply Forall_impl; [exact Hshape|]. intros x [Hdot _]. by destruct x.
  - unfold parse_exts. rewrite split_lower.
    induction (Py.split "," arg) as [|e l IH]; [done|].
    cbn [List.map List.filter]. rewrite lower_truthy.
    destruct (Py.truthy e); [|exact IH].
    cbn [List.map]. rewrite IH. f_equal.
    assert (Py.startswith "." (Py.lower e) = Py.startswith "." e) as ->.
    { destruct e as [|a e]; [done|]. cbn. apply lower_ascii_dot. }
    by rewrite lower_idem.
  - intros e _ Ht Hf Hdot. rewrite (parse_exts_entry e Ht Hf), Hdot.
    split; [|done].
    rewrite (parse_exts_entry (String "." e)); [done|done|].
    cbn [occurs]. by rewrite Hf.
Qed.

Lemma parse_exts_normal_form_witness :
  parse_exts (Py.join "," (parse_exts ".PNG,jpg,,Pdf")) = parse_exts ".PNG,jpg,,Pdf"
  ∧ parse_exts ".PDF" = parse_exts "PDF" ∧ parse_exts "PDF" = [".pdf"%string].
Proof.
  pose proof (parse_exts_normal_form ".PNG,jpg,,Pdf" eq_refl) as (_ & Hfix & _ & Hdot).
  split; [exact Hfix|].
  apply (Hdot "PDF"%string); reflexivity.
Defined.




(** ** Rows without output *)

(** X9: a report row without matching output has status
    [NOT_ELABORATED], [has_output] unset and an empty [matched_outputs];
    when the output tree lists no file, every row is such a row. *)
Theorem unmatched_rows {timestamp : Type}
    (walk : string → list (string * list string * list string))
    (relpath : string → string → string) (abspath : string → string)
    (getmtime : string → option timestamp) (isoformat : timestamp → option string)
    (data_dir output_dir : string) (exts : list string)
    (include_all sort_rows : bool) (row : ReportRow) :
  row ∈ (generate_report walk relpath abspath getmtime isoformat
           data_dir output_dir exts include_all sort_rows).1 →
  (num_outputs row = 0%nat →
   status row = "NOT_ELABORATED"%string ∧ has_output row = false
   ∧ matched_outputs row = EmptyString)
  ∧ (listed (walk output_dir) = [] → num_outputs row = 0%nat).
Proof.
  intros (root & f & _ & _ & ->)%generate_report_elem.
  destruct (report_row_fields relpath abspath data_dir
              (scan_outputs walk relpath getmtime isoformat output_dir) root f)
    as (_ & Hst & Hn & Hh & _ & Hm & _).
  rewrite Hst, Hn, Hh, Hm. split.
  - intros Hlen. apply length_zero_iff_nil in Hlen. rewrite Hlen.
    split_and!; [apply determine_status_nil|done|done].
  - intros Hempty. by rewrite scan_outputs_listed, Hempty.
Qed.

Lemma unmatched_rows_witness :
  let row :=
    report_row Fixture.relpath Fixture.abspath "data"
      (scan_outputs Fixture.walk Fixture.relpath Fixture.getmtime Fixture.isoformat
         "nowhere")
      "data/ftp/CategoryX/Book1" "img001.png" in
  status row = "NOT_ELABORATED"%string ∧ has_output row = false
  ∧ matched_outputs row = EmptyString.
Proof.
  intros row.
  destruct (unmatched_rows Fixture.walk Fixture.relpath Fixture.abspath
              Fixture.getmtime Fixture.isoformat
              "data" "nowhere" COMMON_IMAGE_EXTS false true row) as [Hzero Hempty].
  - apply list_elem_of_In. vm_compute. tauto.
  - apply Hzero, Hempty. reflexivity.
Defined.

(** ** More on category and container *)

(** X10: for a file that lies at least two directories deep below the
    leading wrappers, the category is the first and the container the
    second of these directories, as the first two segments of the
    normalised relative directory. *)
Theorem category_of_deep_file (ws rest : list string) (c d f : string) :
  Forall is_wrapper ws → is_segment c → ¬ is_wrapper c → is_segment d →
  Forall is_segment rest → occurs PosixPath.sep f = false →
  let rel := Py.join "/" (ws ++ c :: d :: rest ++ [f]) in
  category_container rel = (c, d)
  ∧ category_spec rel = c ∧ container_spec rel = d.
Proof.
  intros Hws Hc Hnw Hd Hrest Hf rel.
  assert (Forall is_segment (ws ++ c :: d :: rest)) as Hsegs.
  { apply Forall_app. split.
    - eapply Forall_impl; [exact Hws|apply is_wrapper_segment].
    - by repeat (apply Forall_cons; split; [done|]). }
  assert (drop_wrappers (segments (PosixPath.dirname rel)) = c :: d :: rest) as Hdir.
  { unfold rel.
    replace (ws ++ c :: d :: rest ++ [f]) with ((ws ++ c :: d :: rest) ++ [f])
      by (by rewrite <- app_assoc).
    rewrite dirname_join, segments_join, drop_wrappers_app by done.
    cbn [drop_wrappers]. by rewrite decide_False. }
  split_and!.
  - apply (category_container_break rel ws (d :: rest ++ [f]) c); try done.
    + unfold rel. apply (split_join PosixPath.sep); [by destruct ws|].
      replace (ws ++ c :: d :: rest ++ [f]) with ((ws ++ c :: d :: rest) ++ [f])
        by (by rewrite <- app_assoc).
      apply Forall_app. split; [|by repeat constructor].
      eapply Forall_impl; [exact Hsegs|]. by intros x [_ ?].
    + eapply Forall_impl; [exact Hws|]. by right.
    + destruct Hc as [Hc _]. by destruct c.
  - unfold category_spec. by rewrite Hdir.
  - unfold container_spec. by rewrite Hdir.
Qed.

Lemma category_of_deep_file_witness :
  category_container "ftp/data/CategoryX/Book1/page/img001.png"
  = ("CategoryX"%string, "Book1"%string).
Proof.
  apply (category_of_deep_file ["ftp"; "data"]%string ["page"%string]
           "CategoryX" "Book1" "img001.png").
  - repeat constructor; by vm_compute.
  - by split.
  - intros Hw. apply (bool_decide_pack _) in Hw. vm_compute in Hw. exact Hw.
  - by split.
  - repeat constructor.
  - reflexivity.
Defined.

(** X11: when every segment of the relative path is empty or a wrapper,
    the loop finds no category and the first segment of the path, itself
    empty or a wrapper, is taken as category, the second as container. *)
Theorem category_fallback (rel : string) :
  Forall (λ p, p = EmptyString ∨ is_wrapper p) (Py.split PosixPath.sep rel) →
  category_container rel
  = (nth 0 (Py.split PosixPath.sep rel) EmptyString,
     nth 1 (Py.split PosixPath.sep rel) EmptyString)
  ∧ ((category_container rel).1 = EmptyString ∨ is_wrapper (category_container rel).1).
Proof.
  intros Hall.
  assert (category_container rel
          = (nth 0 (Py.split PosixPath.sep rel) EmptyString,
             nth 1 (Py.split PosixPath.sep rel) EmptyString)) as Heq.
  { unfold category_container. rewrite category_loop_none by done.
    pose proof (split_not_nil PosixPath.sep rel) as Hne.
    destruct (Py.split PosixPath.sep rel) as [|p [|q parts]]; done. }
  split; [exact Heq|]. rewrite Heq. cbn [fst].
  pose proof (split_not_nil PosixPath.sep rel) as Hne.
  destruct (Py.split PosixPath.sep rel) as [|p parts]; [done|].
  by apply Forall_cons in Hall as [? _].
Qed.

Lemma category_fallback_witness :
  category_container "ftp/data" = ("ftp"%string, "data"%string).
Proof.
  apply (category_fallback "ftp/data").
  repeat (apply Forall_cons; split; [right; by vm_compute|]). constructor.
Defined.

(** ** The directory key of the matcher *)

Section SplitFacts.

Variable c : ascii.

Lemma rfind_opt_none (s : string) : Py.rfind_opt c s = None → occurs c s = false.
Proof.
  induction s as [|a s IH]; [done|]. cbn [Py.rfind_opt occurs].
  destruct (Py.rfind_opt c s); [done|].
  destruct (Ascii.eqb a c); [done|]. intros _. by apply IH.
Qed.

Lemma split_two (s : string) (i : nat) :
  Py.rfind_opt c s = Some i → ∃ w v ws, Py.split c s = w :: v :: ws.
Proof.
  revert i. induction s as [|a s IH]; intros i; [done|].
  cbn [Py.rfind_opt Py.split].
  destruct (Py.rfind_opt c s) as [j|] eqn:Hs.
  - intros _. destruct (IH j eq_refl) as (w & v & ws & ->).
    destruct (Ascii.eqb a c); eauto.
  - destruct (Ascii.eqb a c); [|done]. intros _.
    pose proof (split_not_nil c s) as Hne.
    destruct (Py.split c s) as [|w ws]; [done|]. eauto.
Qed.

Lemma split_take_rfind (s : string) (i : nat) :
  Py.rfind_opt c s = Some i →
  Py.split c (Py.take_str (S i) s) = removelast (Py.split c s) ++ [EmptyString].
Proof.
  revert i. induction s as [|a s IH]; intros i; [done|].
  cbn [Py.rfind_opt].
  destruct (Py.rfind_opt c s) as [j|] eqn:Hs.
  - intros [= <-].
    change (Py.take_str (S (S j)) (String a s)) with (String a (Py.take_str (S j) s)).
    cbn [Py.split]. rewrite (IH j eq_refl).
    destruct (split_two s j Hs) as (w & v & ws & ->).
    destruct (Ascii.eqb a c); reflexivity.
  - destruct (Ascii.eqb a c) eqn:Ha; [|done]. intros [= <-].
    cbn [Py.take_str Py.split]. rewrite Ha.
    rewrite (split_free_id c s) by (by apply rfind_opt_none).
    reflexivity.
Qed.

Lemma split_rstrip (s : string) :
  ∃ k, Py.split c s = Py.split c (Py.rstrip c s) ++ replicate k EmptyString.
Proof.
  induction s as [|a s (k & IH)]; [by exists 0%nat|].
  cbn [Py.rstrip Py.split].
  destruct (Ascii.eqb a c) eqn:Ha.
  - destruct (Py.rstrip c s) as [|b r] eqn:Hr.
    + exists (S k). rewrite IH. reflexivity.
    + exists k. cbn [Py.split]. rewrite Ha, IH. reflexivity.
  - exists k. rewrite IH.
    pose proof (split_not_nil c (Py.rstrip c s)) as Hne.
    replace (match Py.rstrip c s with
             | EmptyString => String a EmptyString
             | String a0 s0 => String a (String a0 s0)
             end)
      with (String a (Py.rstrip c s)) by (by destruct (Py.rstrip c s)).
    cbn [Py.split]. rewrite Ha.
    destruct (Py.split c (Py.rstrip c s)); done.
Qed.

End SplitFacts.

Lemma filter_truthy_replicate (k : nat) :
  List.filter Py.truthy (replicate k EmptyString) = [].
Proof. induction k as [|k IH]; [done|exact IH]. Qed.

Lemma segments_rstrip (s : string) :
  segments (Py.rstrip PosixPath.sep s) = segments s.
Proof.
  unfold segments. destruct (split_rstrip PosixPath.sep s) as [k ->].
  by rewrite List.filter_app, filter_truthy_replicate, app_nil_r.
Qed.

Lemma segments_dirname (p : string) :
  segments (PosixPath.dirname p)
  = List.filter Py.truthy (removelast (Py.split PosixPath.sep p)).
Proof.
  unfold PosixPath.dirname, Py.rfind.
  assert (segments (Py.take_str
                      (Z.to_nat (match Py.rfind_opt PosixPath.sep p with
                                 | Some i => Z.of_nat i
                                 | None => -1
                                 end + 1)) p)
          = List.filter Py.truthy (removelast (Py.split PosixPath.sep p))) as Hhead.
  { destruct (Py.rfind_opt PosixPath.sep p) as [i|] eqn:Hi.
    - replace (Z.to_nat (Z.of_nat i + 1)) with (S i) by lia.
      unfold segments. rewrite (split_take_rfind _ _ _ Hi).
      by rewrite List.filter_app, app_nil_r.
    - rewrite (split_free_id PosixPath.sep p) by (by apply rfind_opt_none).
      by destruct p. }
  destruct (_ && _); [|exact Hhead].
  by rewrite segments_rstrip.
Qed.

Lemma removelast_cons {A : Type} (x : A) (l : list A) :
  l ≠ [] → removelast (x :: l) = x :: removelast l.
Proof. by destruct l. Qed.

Lemma strip_leading_dirname_wrapper (w x : string) :
  is_wrapper w →
  strip_leading (PosixPath.dirname (w +:+ String PosixPath.sep x))
  = strip_leading (PosixPath.dirname x).
Proof.
  intros Hw. destruct (is_wrapper_segment w Hw) as [Ht Hf].
  rewrite !strip_leading_normalize. unfold normalize_spec.
  rewrite !segments_dirname, split_app_sep by done.
  rewrite removelast_cons by apply split_not_nil.
  cbn [List.filter drop_wrappers]. rewrite Ht.
  cbn [drop_wrappers]. by rewrite decide_True.
Qed.

(** X12: the directory under which the matcher files a path is made of
    the non-empty components before the last separator, without the
    leading wrappers: empty components (doubled, leading or trailing
    separators) and the last component play no part. *)
Theorem directory_key (p : string) :
  strip_leading (PosixPath.dirname p)
  = Py.join "/" (drop_wrappers
                   (List.filter Py.truthy (removelast (Py.split PosixPath.sep p)))).
Proof.
  rewrite strip_leading_normalize. unfold normalize_spec.
  by rewrite segments_dirname.
Qed.

(** X13: putting a wrapper directory in front of a source path, or in
    front of the relative path of an output record, changes nothing of
    what matches. *)
Theorem wrapper_prefix_ignored (w src_rel src_basename : string)
    (outputs : list OutputRecord) :
  is_wrapper w →
  find_matches_for_source (w +:+ String PosixPath.sep src_rel) src_basename outputs
  = find_matches_for_source src_rel src_basename outputs
  ∧ (∀ out,
       same_place src_rel src_basename
         {| full := full out; rel := w +:+ String PosixPath.sep (rel out);
            basename := basename out; ext := ext out; kind := kind out;
            mtime := mtime out |}
       ↔ same_place src_rel src_basename out).
Proof.
  intros Hw. split.
  - rewrite !find_matches_filter. apply list_filter_iff. intros out.
    unfold same_place. by rewrite strip_leading_dirname_wrapper.
  - intros out. unfold same_place. cbn [rel basename].
    by rewrite strip_leading_dirname_wrapper.
Qed.

Lemma wrapper_prefix_ignored_witness :
  find_matches_for_source "TMP/ftp/CategoryX/Book1/img001.png" "img001" Fixture.outputs
  = find_matches_for_source "ftp/CategoryX/Book1/img001.png" "img001" Fixture.outputs.
Proof.
  apply (wrapper_prefix_ignored "TMP" "ftp/CategoryX/Book1/img001.png" "img001"
           Fixture.outputs).
  by vm_compute.
Defined.

(** ** Status and extensions, end to end *)

Lemma determine_status_iff (kinds : list string) :
  (determine_status kinds = "ELABORATED"%string ↔ "csv"%string ∈ kinds)
  ∧ (determine_status kinds = "TIMEOUT"%string
     ↔ ("csv"%string ∉ kinds) ∧ "timeout"%string ∈ kinds)
  ∧ (determine_status kinds = "ERROR"%string
     ↔ ("csv"%string ∉ kinds) ∧ ("timeout"%string ∉ kinds) ∧ "error"%string ∈ kinds).
Proof.
  rewrite determine_status_cases.
  repeat case_decide; split_and!; split; try done; tauto.
Qed.

Lemma output_record_kind {timestamp : Type}
    (relpath : string → string → string)
    (getmtime : string → option timestamp) (isoformat : timestamp → option string)
    (output_dir root f : string) :
  let r := output_record relpath getmtime isoformat output_dir root f in
  (kind r = "csv"%string ↔ ext r = ".csv"%string)
  ∧ (kind r = "timeout"%string ↔ ext r = ".timeout"%string)
  ∧ (kind r = "error"%string ↔ ext r = ".error"%string).
Proof.
  cbv zeta. unfold output_record.
  destruct (PosixPath.splitext (PosixPath.basename f)) as [name e].
  cbn [kind ext]. rewrite classify_lower. unfold kind_of_extension.
  repeat case_decide; split_and!; split; try done; congruence.
Qed.

(** X14: a report row is [ELABORATED] exactly when the output index holds
    a record with extension [.csv] in the same normalised directory and
    with the same basename; it is [TIMEOUT] exactly when there is no such
    [.csv] record but a [.timeout] one, and [ERROR] exactly when there is
    neither but an [.error] one. *)
Theorem status_by_found_extensions {timestamp : Type}
    (walk : string → list (string * list string * list string))
    (relpath : string → string → string) (abspath : string → string)
    (getmtime : string → option timestamp) (isoformat : timestamp → option string)
    (data_dir output_dir : string) (exts : list string)
    (include_all sort_rows : bool) (row : ReportRow) :
  row ∈ (generate_report walk relpath abspath getmtime isoformat
           data_dir output_dir exts include_all sort_rows).1 →
  let found (e : string) :=
    ∃ out, out ∈ scan_outputs walk relpath getmtime isoformat output_dir
           ∧ same_place (relative_path row) (row_basename row) out
           ∧ ext out = e in
  (status row = "ELABORATED"%string ↔ found ".csv"%string)
  ∧ (status row = "TIMEOUT"%string ↔ ¬ found ".csv"%string ∧ found ".timeout"%string)
  ∧ (status row = "ERROR"%string
     ↔ ¬ found ".csv"%string ∧ ¬ found ".timeout"%string ∧ found ".error"%string).
Proof.
  intros (root & f & _ & _ & ->)%generate_report_elem found.
  set (outputs := scan_outputs walk relpath getmtime isoformat output_dir) in *.
  destruct (report_row_fields relpath abspath data_dir outputs root f)
    as (Hrel & Hst & _).
  assert (row_basename (report_row relpath abspath data_dir outputs root f)
          = (PosixPath.splitext (PosixPath.basename f)).1) as Hbase.
  { unfold report_row. rewrite match_loop.
    by destruct (category_container _). }
  assert (∀ k e,
            (∀ out, out ∈ outputs → kind out = k ↔ ext out = e) →
            k ∈ kind <$> find_matches_for_source
                           (relpath (PosixPath.join root f) data_dir)
                           (PosixPath.splitext (PosixPath.basename f)).1 outputs
            ↔ found e) as Hfound.
  { intros k e Hke. unfold found. rewrite Hrel, Hbase.
    rewrite list_elem_of_fmap. setoid_rewrite find_matches_filter.
    setoid_rewrite list_elem_of_filter. split.
    - intros (out & -> & Hsame & Hin). exists out. split_and!; try done.
      by apply Hke.
    - intros (out & Hin & Hsame & Hext). exists out. split_and!; try done.
      symmetry. by apply Hke. }
  assert (∀ out, out ∈ outputs →
            (kind out = "csv"%string ↔ ext out = ".csv"%string)
            ∧ (kind out = "timeout"%string ↔ ext out = ".timeout"%string)
            ∧ (kind out = "error"%string ↔ ext out = ".error"%string)) as Hkind.
  { intros out (r & g & _ & ->)%scan_outputs_elem. apply output_record_kind. }
  rewrite Hst.
  destruct (determine_status_iff
              (kind <$> find_matches_for_source
                 (relpath (PosixPath.join root f) data_dir)
                 (PosixPath.splitext (PosixPath.basename f)).1 outputs))
    as (He & Ht & Hr).
  rewrite He, Ht, Hr.
  rewrite <- (Hfound "csv" ".csv")%string by (intros out Hin; apply (Hkind out Hin)).
  rewrite <- (Hfound "timeout" ".timeout")%string by (intros out Hin; apply (Hkind out Hin)).
  rewrite <- (Hfound "error" ".error")%string by (intros out Hin; apply (Hkind out Hin)).
  done.
Qed.

Lemma status_by_found_extensions_witness :
  status (report_row Fixture.relpath Fixture.abspath "data" Fixture.outputs
            "data/ftp/CategoryX/Book1" "img002.png")
  = "TIMEOUT"%string.
Proof.
  pose proof (status_by_found_extensions Fixture.walk Fixture.relpath Fixture.abspath
                Fixture.getmtime Fixture.isoformat
                "data" "out" COMMON_IMAGE_EXTS false true
                (report_row Fixture.relpath Fixture.abspath "data" Fixture.outputs
                   "data/ftp/CategoryX/Book1" "img002.png")) as H.
  cbv zeta in H. destruct H as (_ & Htimeout & _).
  - apply list_elem_of_In. vm_compute. tauto.
  - apply Htimeout. split.
    + intros (out & Hin & [_ Hbase] & Hext).
      apply list_elem_of_In in Hin. vm_compute in Hin, Hbase.
      destruct Hin as [<-|[<-|[<-|[<-|[]]]]]; discriminate.
    + exists {| full := "out/output/CategoryX/Book1/img002.TIMEOUT";
                rel := "output/CategoryX/Book1/img002.TIMEOUT";
                basename := "img002"; ext := ".timeout"; kind := "timeout";
                mtime := "2023-11-14 22:13:20" |}.
      split_and!.
      * apply list_elem_of_In. vm_compute. tauto.
      * split; vm_compute; reflexivity.
      * reflexivity.
Defined.
